(** * clusterd_tester: a shallow embedding of [ClusterDTester]

    The Python class [ClusterDTester] (clusterd_tester.py) replays a directory
    of XML files to a daemon over one TCP socket.  Its methods are embedded
    here as computations in a state-and-exception monad over the pair of the
    tester object and its environment (socket, file system, clock, logger,
    error stream).

    Conventions of the embedding:
    - a Python [str] is a [string], one character per code point;
    - [bytes] are [list byte];
    - a Python exception is a value of [exn]; a raised exception leaves the
      state as it was at the [raise] (nothing is rolled back);
    - the floating point numbers returned by [time.time()] are kept abstract:
      a type [time] with the operations the source applies to them. *)

From Stdlib Require Import String Ascii List ZArith QArith Qround Bool Arith Lia.
From Stdlib.Strings Require Import Byte.
From Stdlib Require Import DecimalString.
Import ListNotations.
Close Scope Q_scope.
Open Scope string_scope.
Open Scope list_scope.

(** ** Python strings *)

(** [s.startswith(p)] *)
Definition startswith (s p : string) : bool := String.prefix p s.

(** [s[n:]] for [n >= 0]; the empty string once [n] passes the end. *)
Fixpoint str_from (n : nat) (s : string) : string :=
  match n, s with
  | O, _ => s
  | S _, EmptyString => EmptyString
  | S n', String _ s' => str_from n' s'
  end.

(** [str(n)] for integers, as used by f-strings. *)
Definition str_of_nat (n : nat) : string := NilZero.string_of_uint (Nat.to_uint n).
Definition str_of_int (z : Z) : string := NilZero.string_of_int (Z.to_int z).

(** [x in l] for a list of strings. *)
Definition str_in (x : string) (l : list string) : bool :=
  existsb (String.eqb x) l.

(** ** Exceptions *)

(** The three classes the module declares (lines 10-20) and the built-in ones
    its statements can raise.  [ConnectionError] is the module's own class,
    a direct subclass of [Exception]: it hides the built-in of that name and is
    unrelated to [OSError].  [socket.error] is [OSError]. *)
Inductive exn : Type :=
| NoAcknowledgmentError (msg : string)
| ConnectionError (msg : string)
| ServerResponseError (msg : string)
| OSError (msg : string)
| UnicodeDecodeError (msg : string)
| AttributeError (msg : string)
| AssertionError (msg : string)
| ZeroDivisionError (msg : string)
| OverflowError (msg : string).

(** [str(e)] *)
Definition exn_str (e : exn) : string :=
  match e with
  | NoAcknowledgmentError m | ConnectionError m | ServerResponseError m
  | OSError m | UnicodeDecodeError m | AttributeError m
  | AssertionError m | ZeroDivisionError m | OverflowError m => m
  end.

Inductive result (A : Type) : Type :=
| Ok (a : A)
| Raise (e : exn).
Arguments Ok {A} a.
Arguments Raise {A} e.

(** ** The tester object *)

Definition Path := string.
Definition Sock := nat.

Record ClusterDTester : Type := mkTester {
  server_ip : string;
  server_port : Z;
  mode : string;
  init_response : string;
  success_prefix : string;
  error_prefix : string;
  sock : option Sock
}.

Definition default_mode : string := "fast".
Definition default_init_response : string := "+RCLUSTER Version v1.10".

(** [ClusterDTester.__init__] (lines 23-47).  [setup_logger] only installs
    handlers; the records the logger receives are kept in the environment. *)
Definition init (ip : string) (port : Z) (m : string) (banner : string)
  : result ClusterDTester :=
  if str_in m ["fast"; "detailed"] then
    Ok {| server_ip := ip; server_port := port; mode := m;
          init_response := banner;
          success_prefix := "+RCLUSTER"; error_prefix := "-RCLUSTER";
          sock := None |}
  else Raise (AssertionError "Invalid mode. Use 'fast' or 'detailed'.").

Definition set_sock (t : ClusterDTester) (s : option Sock) : ClusterDTester :=
  {| server_ip := server_ip t; server_port := server_port t; mode := mode t;
     init_response := init_response t; success_prefix := success_prefix t;
     error_prefix := error_prefix t; sock := s |}.

(** ** The environment *)

(** What one call of [sock.recv(1024).decode('utf-8')] meets: at most 1024
    bytes that decode to a text, bytes that are not UTF-8, or a socket error. *)
Inductive recv_event : Type :=
| RecvText (text : string)
| RecvUndecodable
| RecvError (msg : string).

Inductive level : Type := INFO | ERROR.

Create HintDb sat.

Section Tester.

(** [time.time()] values and the arithmetic the source does on them:
    [a - b], [sum] (which starts from [0] and adds from the left), [x / n]
    for a non-zero count, and the format [:.2f]. *)
Variable time : Type.
Variable tsub : time -> time -> time.
Variable tadd : time -> time -> time.
Variable tzero : time.
Variable tdiv : time -> nat -> time.
Variable fmt2 : time -> string.

Record World : Type := mkWorld {
  (* what the environment will answer *)
  connect_script : list (option string); (* per connect: [Some msg] = socket.error *)
  recv_script : list recv_event;         (* per recv; exhausted = timeout *)
  sendall_script : list (option string); (* per sendall: [Some msg] = socket.error *)
  fs : list (Path * list byte);          (* readable files and their contents *)
  xml_listing : list (Path * list Path); (* directory.glob("*.xml") *)
  clock : nat -> time;                   (* the n-th reading of time.time() *)
  (* what the program has done *)
  ticks : nat;                           (* readings of the clock so far *)
  next_sock : Sock;                      (* sockets created so far *)
  connected : list Sock;                 (* sockets whose connect succeeded *)
  wire : list (Sock * list byte);        (* each sendall call and its argument *)
  closes : list Sock;                    (* each close call *)
  log : list (level * string);           (* records given to the logger *)
  stderr : list string                   (* lines printed to sys.stderr *)
}.

Record St : Type := mkSt { tester : ClusterDTester; env : World }.

Definition M (A : Type) : Type := St -> result A * St.

Definition ret {A} (a : A) : M A := fun st => (Ok a, st).
Definition raise {A} (e : exn) : M A := fun st => (Raise e, st).
Definition bind {A B} (m : M A) (k : A -> M B) : M B :=
  fun st => match m st with
            | (Ok a, st') => k a st'
            | (Raise e, st') => (Raise e, st')
            end.

(** [try: m  except <classes> as e: h e]; [h e = None] when [e] is of none of
    the listed classes, and the exception goes on. *)
Definition try_except {A} (m : M A) (h : exn -> option (M A)) : M A :=
  fun st => match m st with
            | (Ok a, st') => (Ok a, st')
            | (Raise e, st') =>
                match h e with
                | Some k => k st'
                | None => (Raise e, st')
                end
            end.

Definition get_self : M ClusterDTester := fun st => (Ok (tester st), st).
Definition get_env : M World := fun st => (Ok (env st), st).
Definition put_env (w : World) : M unit := fun st => (Ok tt, mkSt (tester st) w).
Definition put_sock (s : option Sock) : M unit :=
  fun st => (Ok tt, mkSt (set_sock (tester st) s) (env st)).

Notation "x <- m ;; k" := (bind m (fun x => k))
  (at level 61, m at next level, right associativity).
Notation "m ;; k" := (bind m (fun _ => k))
  (at level 61, right associativity).

(** *** Field updates of the environment *)

Definition set_connect_script (w : World) (x : list (option string)) : World :=
  mkWorld x (recv_script w) (sendall_script w) (fs w) (xml_listing w) (clock w)
          (ticks w) (next_sock w) (connected w) (wire w) (closes w) (log w) (stderr w).
Definition set_recv_script (w : World) (x : list recv_event) : World :=
  mkWorld (connect_script w) x (sendall_script w) (fs w) (xml_listing w) (clock w)
          (ticks w) (next_sock w) (connected w) (wire w) (closes w) (log w) (stderr w).
Definition set_sendall_script (w : World) (x : list (option string)) : World :=
  mkWorld (connect_script w) (recv_script w) x (fs w) (xml_listing w) (clock w)
          (ticks w) (next_sock w) (connected w) (wire w) (closes w) (log w) (stderr w).
Definition set_ticks (w : World) (x : nat) : World :=
  mkWorld (connect_script w) (recv_script w) (sendall_script w) (fs w) (xml_listing w)
          (clock w) x (next_sock w) (connected w) (wire w) (closes w) (log w) (stderr w).
Definition set_next_sock (w : World) (x : Sock) : World :=
  mkWorld (connect_script w) (recv_script w) (sendall_script w) (fs w) (xml_listing w)
          (clock w) (ticks w) x (connected w) (wire w) (closes w) (log w) (stderr w).
Definition set_connected (w : World) (x : list Sock) : World :=
  mkWorld (connect_script w) (recv_script w) (sendall_script w) (fs w) (xml_listing w)
          (clock w) (ticks w) (next_sock w) x (wire w) (closes w) (log w) (stderr w).
Definition set_wire (w : World) (x : list (Sock * list byte)) : World :=
  mkWorld (connect_script w) (recv_script w) (sendall_script w) (fs w) (xml_listing w)
          (clock w) (ticks w) (next_sock w) (connected w) x (closes w) (log w) (stderr w).
Definition set_closes (w : World) (x : list Sock) : World :=
  mkWorld (connect_script w) (recv_script w) (sendall_script w) (fs w) (xml_listing w)
          (clock w) (ticks w) (next_sock w) (connected w) (wire w) x (log w) (stderr w).
Definition set_log (w : World) (x : list (level * string)) : World :=
  mkWorld (connect_script w) (recv_script w) (sendall_script w) (fs w) (xml_listing w)
          (clock w) (ticks w) (next_sock w) (connected w) (wire w) (closes w) x (stderr w).
Definition set_stderr (w : World) (x : list string) : World :=
  mkWorld (connect_script w) (recv_script w) (sendall_script w) (fs w) (xml_listing w)
          (clock w) (ticks w) (next_sock w) (connected w) (wire w) (closes w) (log w) x.

(** *** The library calls the source makes *)

Fixpoint lookup {V} (k : Path) (l : list (Path * V)) : option V :=
  match l with
  | [] => None
  | (k', v) :: l' => if String.eqb k k' then Some v else lookup k l'
  end.

Definition mem_sock (s : Sock) (l : list Sock) : bool := existsb (Nat.eqb s) l.

(** A socket can carry data once connected and until closed. *)
Definition sock_usable (w : World) (s : Sock) : bool :=
  mem_sock s (connected w) && negb (mem_sock s (closes w)).

(** The message of the [AttributeError] raised by [None.name]. *)
Definition none_has_no_attribute (name : string) : string :=
  "'NoneType' object has no attribute '" ++ name ++ "'".

(** [time.time()] *)
Definition time_time : M time :=
  w <- get_env ;;
  put_env (set_ticks w (S (ticks w))) ;;
  ret (clock w (ticks w)).

(** [self.logger.info(msg)], [self.logger.error(msg)] *)
Definition logger_info (msg : string) : M unit :=
  w <- get_env ;; put_env (set_log w (log w ++ [(INFO, msg)])).
Definition logger_error (msg : string) : M unit :=
  w <- get_env ;; put_env (set_log w (log w ++ [(ERROR, msg)])).

(** [print(msg, file=sys.stderr)] *)
Definition print_stderr (msg : string) : M unit :=
  w <- get_env ;; put_env (set_stderr w (stderr w ++ [msg])).

(** [socket.socket(socket.AF_INET, socket.SOCK_STREAM)] *)
Definition socket_socket : M Sock :=
  w <- get_env ;;
  put_env (set_next_sock w (S (next_sock w))) ;;
  ret (next_sock w).

(** [sock.settimeout(10)] *)
Definition sock_settimeout (s : Sock) (seconds : nat) : M unit := ret tt.

(** The ports [connect] accepts, and the message of the [OverflowError] it
    raises for any other: the port does not fit the C integer the call
    converts it to, or it does but is not in 0..65535. *)
Definition valid_port (port : Z) : bool := (0 <=? port)%Z && (port <=? 65535)%Z.
Definition port_error_message (port : Z) : string :=
  if (- 2 ^ 31 <=? port)%Z && (port <? 2 ^ 31)%Z then
    "connect(): port must be 0-65535."
  else "Python int too large to convert to C int".
Arguments valid_port : simpl never.
Arguments port_error_message : simpl never.

(** [sock.connect((ip, port))].  The script says whether this call fails
    with a socket error ([Some msg]) or not.  A call that does not is still
    refused when the port is not one [connect] accepts: it raises
    [OverflowError], which is no socket error, and connects nothing. *)
Definition sock_connect (s : Sock) (ip : string) (port : Z) : M unit :=
  w <- get_env ;;
  match connect_script w with
  | Some msg :: rest =>
      put_env (set_connect_script w rest) ;; raise (OSError msg)
  | None :: rest =>
      if valid_port port then
        put_env (set_connected (set_connect_script w rest) (connected w ++ [s]))
      else
        put_env (set_connect_script w rest) ;;
        raise (OverflowError (port_error_message port))
  | [] =>
      if valid_port port then put_env (set_connected w (connected w ++ [s]))
      else raise (OverflowError (port_error_message port))
  end.

(** [sock.recv(1024).decode('utf-8')]; [sock] may be [None]. *)
Definition sock_recv_decode (so : option Sock) : M string :=
  match so with
  | None => raise (AttributeError (none_has_no_attribute "recv"))
  | Some s =>
      w <- get_env ;;
      if negb (sock_usable w s) then raise (OSError "[Errno 9] Bad file descriptor")
      else match recv_script w with
           | [] => raise (OSError "timed out")
           | ev :: rest =>
               put_env (set_recv_script w rest) ;;
               match ev with
               | RecvText text => ret text
               | RecvUndecodable =>
                   raise (UnicodeDecodeError "'utf-8' codec can't decode bytes")
               | RecvError msg => raise (OSError msg)
               end
           end
  end.

(** [sock.sendall(data)]; [sock] may be [None].  The call and its argument
    are recorded whatever its outcome. *)
Definition sock_sendall (so : option Sock) (data : list byte) : M unit :=
  match so with
  | None => raise (AttributeError (none_has_no_attribute "sendall"))
  | Some s =>
      w <- get_env ;;
      let w1 := set_wire w (wire w ++ [(s, data)]) in
      if negb (sock_usable w s) then
        put_env w1 ;; raise (OSError "[Errno 9] Bad file descriptor")
      else match sendall_script w with
           | Some msg :: rest =>
               put_env (set_sendall_script w1 rest) ;; raise (OSError msg)
           | None :: rest => put_env (set_sendall_script w1 rest)
           | [] => put_env w1
           end
  end.

(** [sock.close()]; [sock] may be [None].  Closing a socket never fails and
    may be repeated. *)
Definition sock_close (so : option Sock) : M unit :=
  match so with
  | None => raise (AttributeError (none_has_no_attribute "close"))
  | Some s => w <- get_env ;; put_env (set_closes w (closes w ++ [s]))
  end.

(** [with file_path.open('rb') as file: file.read()] *)
Definition read_file (file_path : Path) : M (list byte) :=
  w <- get_env ;;
  match lookup file_path (fs w) with
  | Some data => ret data
  | None => raise (OSError ("[Errno 2] No such file or directory: '" ++ file_path ++ "'"))
  end.

(** [list(directory.glob("*.xml"))] *)
Definition glob_xml (directory : Path) : M (list Path) :=
  w <- get_env ;;
  match lookup directory (xml_listing w) with
  | Some files => ret files
  | None => ret []
  end.

(** ** The methods of [ClusterDTester] *)

(** [count_xml_files] (lines 67-70) *)
Definition count_xml_files (directory : Path) : M (nat * list Path) :=
  xml_files <- glob_xml directory ;;
  ret (length xml_files, xml_files).

(** [establish_connection] (lines 72-80) *)
Definition establish_connection : M Sock :=
  self <- get_self ;;
  try_except
    (sock <- socket_socket ;;
     sock_settimeout sock 10 ;;
     sock_connect sock (server_ip self) (server_port self) ;;
     ret sock)
    (fun e =>
       match e with
       | OSError _ =>
           Some (raise (ConnectionError
                          ("Failed to connect to " ++ server_ip self ++ ":"
                           ++ str_of_int (server_port self) ++ ": " ++ exn_str e)))
       | _ => None
       end).

(** The message of line 87. *)
Definition no_acknowledgment_message (self : ClusterDTester)
           (serv_init_response : string) : string :=
  "No acknowledgment from " ++ server_ip self ++ ":"
  ++ str_of_int (server_port self) ++ ": " ++ serv_init_response.

(** [validate_server_acknowledgment] (lines 82-87) *)
Definition validate_server_acknowledgment (sock : option Sock) : M unit :=
  self <- get_self ;;
  serv_init_response <- sock_recv_decode sock ;;
  if negb (serv_init_response =? init_response self) then
    raise (NoAcknowledgmentError (no_acknowledgment_message self serv_init_response))
  else ret tt.

(** [establish_and_validate_connection] (lines 89-93) *)
Definition establish_and_validate_connection : M unit :=
  self <- get_self ;;
  match sock self with
  | None =>
      s <- establish_connection ;;
      put_sock (Some s) ;;
      self <- get_self ;;
      validate_server_acknowledgment (sock self)
  | Some _ => ret tt
  end.

(** The literal [b"BUF"]. *)
Definition BUF : list byte := [x42; x55; x46].

(** [send_rdf_data] (lines 95-99) *)
Definition send_rdf_data (sock : option Sock) (file_path : Path) : M unit :=
  rdf_data <- read_file file_path ;;
  sock_sendall sock (BUF ++ rdf_data).

(** The two messages of [process_server_response]. *)
Definition failure_message (file_path : Path) (error_message : string) : string :=
  "Failure for " ++ file_path ++ ": " ++ error_message.
Definition unexpected_message (file_path : Path) (server_response : string) : string :=
  "Unexpected response for " ++ file_path ++ ": " ++ server_response.

(** [process_server_response] (lines 101-110) *)
Definition process_server_response (sock : option Sock) (file_path : Path) : M unit :=
  self <- get_self ;;
  server_response <- sock_recv_decode sock ;;
  if startswith server_response (success_prefix self) && (mode self =? "detailed") then
    logger_info ("Success for " ++ file_path ++ ": " ++ server_response)
  else if startswith server_response (error_prefix self) then
    let error_message :=
      str_from (String.length (error_prefix self ++ " ")) server_response in
    raise (ServerResponseError (failure_message file_path error_message))
  else
    raise (ServerResponseError (unexpected_message file_path server_response)).

(** The [except] clause of [send_file] (line 120). *)
Definition file_local (e : exn) : bool :=
  match e with
  | ConnectionError _ | NoAcknowledgmentError _ | ServerResponseError _ => true
  | _ => false
  end.

(** [send_file] (lines 112-123) *)
Definition send_file (file_path : Path) : M (time * bool) :=
  start_time <- time_time ;;
  success_flag <-
    try_except
      (self <- get_self ;;
       send_rdf_data (sock self) file_path ;;
       self <- get_self ;;
       process_server_response (sock self) file_path ;;
       ret true)
      (fun e =>
         if file_local e then
           Some (logger_error (exn_str e) ;;
                 print_stderr (exn_str e) ;;
                 ret false)
         else None) ;;
  end_time <- time_time ;;
  ret (tsub end_time start_time, success_flag).

(** The loop of [replay_xmlnews] (lines 139-147), with its two accumulators. *)
Fixpoint send_loop (xml_files : list Path) (file_times : list time)
         (error_count : nat) : M (list time * nat) :=
  match xml_files with
  | [] => ret (file_times, error_count)
  | file_path :: rest =>
      self <- get_self ;;
      (if mode self =? "detailed" then
         logger_info ("Sending " ++ file_path ++ " to " ++ server_ip self ++ ":"
                      ++ str_of_int (server_port self))
       else ret tt) ;;
      r <- send_file file_path ;;
      let '(time_taken, success) := r in
      if success then send_loop rest (file_times ++ [time_taken]) error_count
      else send_loop rest file_times (error_count + 1)
  end.

(** [sum(file_times)]: starts at [0] and adds the items from the left. *)
Definition py_sum (l : list time) : time := fold_left tadd l tzero.

(** [x / n] for a float (or the integer 0) [x] and an integer [n]. *)
Definition truediv (x : time) (n : nat) : M time :=
  match n with
  | O => raise (ZeroDivisionError "division by zero")
  | S _ => ret (tdiv x n)
  end.

Definition processed_line (success_file_count error_count : nat) (total_time : time)
  : string :=
  "Processed " ++ str_of_nat success_file_count ++ " files with "
  ++ str_of_nat error_count ++ " errors in " ++ fmt2 total_time ++ " seconds.".
Definition average_line (average : time) : string :=
  "Average processing time per successful file: " ++ fmt2 average ++ " seconds.".

(** The summary of [replay_xmlnews] (lines 149-157). *)
Definition report (file_times : list time) (error_count : nat) : M unit :=
  let total_time := py_sum file_times in
  let success_file_count := length file_times in
  logger_info (processed_line success_file_count error_count total_time) ;;
  if (0 <? success_file_count)%nat then
    average <- truediv total_time (length file_times) ;;
    logger_info (average_line average)
  else ret tt.

(** The [except] clause of [replay_xmlnews] (line 129). *)
Definition run_fatal (e : exn) : bool :=
  match e with
  | ConnectionError _ | NoAcknowledgmentError _ => true
  | _ => false
  end.

(** [replay_xmlnews] (lines 125-159) *)
Definition replay_xmlnews (directory : Path) : M unit :=
  proceed <-
    try_except
      (establish_and_validate_connection ;; ret true)
      (fun e =>
         if run_fatal e then
           Some (logger_error ("Initial connection failed: " ++ exn_str e) ;;
                 print_stderr ("Initial connection failed: " ++ exn_str e) ;;
                 self <- get_self ;;
                 sock_close (sock self) ;;
                 ret false)
         else None) ;;
  if negb proceed then ret tt
  else
    counted <- count_xml_files directory ;;
    let xml_files := snd counted in
    r <- send_loop xml_files [] 0 ;;
    report (fst r) (snd r) ;;
    self <- get_self ;;
    sock_close (sock self).

(** ** Vocabulary of the properties *)

(** What [__init__] fixes in every tester it returns. *)
Definition constructed (t : ClusterDTester) : Prop :=
  success_prefix t = "+RCLUSTER" /\ error_prefix t = "-RCLUSTER" /\
  (mode t = "fast" \/ mode t = "detailed").

(** The next [recv] on socket [s] returns the text [r]. *)
Definition receives (st : St) (s : Sock) (r : string) (rest : list recv_event) : Prop :=
  sock_usable (env st) s = true /\ recv_script (env st) = RecvText r :: rest.

(** The state once that text has been read. *)
Definition after_recv (st : St) (rest : list recv_event) : St :=
  mkSt (tester st) (set_recv_script (env st) rest).

(** A step that leaves the tester object alone and forgets no connected
    socket. *)
Definition frame (st st' : St) : Prop :=
  tester st' = tester st /\ incl (connected (env st)) (connected (env st')).

(** Every exception but [ZeroDivisionError]. *)
Definition not_zero_division (e : exn) : Prop :=
  match e with ZeroDivisionError _ => False | _ => True end.

(** A step that changes no field of the tester but, at most, [sock]. *)
Definition same_config (st st' : St) : Prop :=
  set_sock (tester st') None = set_sock (tester st) None.

(** A handle held in [self.sock] is a socket whose [connect] succeeded. *)
Definition handle_inv (st : St) : Prop :=
  forall s, sock (tester st) = Some s -> In s (connected (env st)).

(** A step that keeps [handle_inv]. *)
Definition inv_step (st st' : St) : Prop := handle_inv st -> handle_inv st'.

(** The methods of the class, as calls on a tester. *)
Inductive method : Type :=
| CountXmlFiles (directory : Path)
| EstablishConnection
| ValidateServerAcknowledgment (sock : option Sock)
| EstablishAndValidateConnection
| SendRdfData (sock : option Sock) (file_path : Path)
| ProcessServerResponse (sock : option Sock) (file_path : Path)
| SendFile (file_path : Path)
| ReplayXmlnews (directory : Path).

(** Running a method, its return value dropped. *)
Definition call (m : method) : M unit :=
  match m with
  | CountXmlFiles d => count_xml_files d ;; ret tt
  | EstablishConnection => establish_connection ;; ret tt
  | ValidateServerAcknowledgment so => validate_server_acknowledgment so
  | EstablishAndValidateConnection => establish_and_validate_connection
  | SendRdfData so fp => send_rdf_data so fp
  | ProcessServerResponse so fp => process_server_response so fp
  | SendFile fp => send_file fp ;; ret tt
  | ReplayXmlnews d => replay_xmlnews d
  end.

(** The states a tester goes through: built by the constructor in any
    environment, then any sequence of method calls. *)
Inductive reachable : St -> Prop :=
| reach_init ip port m banner t w :
    init ip port m banner = Ok t -> reachable (mkSt t w)
| reach_call m st :
    reachable st -> reachable (snd (call m st)).

(** The outcomes (elapsed time, success flag) of the files of a run, in the
    order the loop of [replay_xmlnews] produces them: the sequence the spec
    calls the run's TransferOutcomes.  It is the loop without its two
    accumulators. *)
Fixpoint transfer_outcomes (xml_files : list Path) : M (list (time * bool)) :=
  match xml_files with
  | [] => ret []
  | file_path :: rest =>
      self <- get_self ;;
      (if mode self =? "detailed" then
         logger_info ("Sending " ++ file_path ++ " to " ++ server_ip self ++ ":"
                      ++ str_of_int (server_port self))
       else ret tt) ;;
      r <- send_file file_path ;;
      os <- transfer_outcomes rest ;;
      ret (r :: os)
  end.

(** The durations of the successful transfers, and the number of the others. *)
Definition successful_durations (os : list (time * bool)) : list time :=
  map fst (filter snd os).
Definition failed_count (os : list (time * bool)) : nat :=
  length (filter (fun o => negb (snd o)) os).

(** The state with the records [l] added to the log. *)
Definition add_log (st : St) (l : list (level * string)) : St :=
  mkSt (tester st) (set_log (env st) (log (env st) ++ l)).

(** The records the summary writes for [n] successes of total time [total]
    and [errors] failures. *)
Definition summary_records (n errors : nat) (total : time) : list (level * string) :=
  (INFO, processed_line n errors total)
  :: match n with
     | O => []
     | S _ => [(INFO, average_line (tdiv total n))]
     end.


(** The next [connect], and the next [sendall], will not raise. *)
Definition next_connect_ok (w : World) : bool :=
  match connect_script w with
  | Some _ :: _ => false
  | _ => true
  end.
Definition next_sendall_ok (w : World) : bool :=
  match sendall_script w with
  | Some _ :: _ => false
  | _ => true
  end.

(** The message of the [OSError] raised when a file cannot be opened. *)
Definition no_such_file_message (file_path : Path) : string :=
  "[Errno 2] No such file or directory: '" ++ file_path ++ "'".

(** The record [send_file] leaves in the log for a response [r]. *)
Definition outcome_record (self : ClusterDTester) (fp : Path) (r : string)
  : level * string :=
  if startswith r "+RCLUSTER" && (mode self =? "detailed") then
    (INFO, "Success for " ++ fp ++ ": " ++ r)%string
  else if startswith r "-RCLUSTER" then
    (ERROR, failure_message fp (str_from (String.length "-RCLUSTER ") r))
  else (ERROR, unexpected_message fp r).

(** The files [count_xml_files] finds in a directory. *)
Definition listed (w : World) (directory : Path) : list Path :=
  match lookup directory (xml_listing w) with
  | Some files => files
  | None => []
  end.

(** The exception the next [recv] raises, if it raises. *)
Definition next_recv_error (w : World) : option exn :=
  match recv_script w with
  | [] => Some (OSError "timed out")
  | RecvText _ :: _ => None
  | RecvUndecodable :: _ => Some (UnicodeDecodeError "'utf-8' codec can't decode bytes")
  | RecvError msg :: _ => Some (OSError msg)
  end.

(** ** Properties *)

(** *** Strings *)

Lemma str_from_app (a d : string) : str_from (String.length a) (a ++ d) = d.
Proof. induction a as [|c a IH]; simpl; [reflexivity | exact IH]. Qed.

Lemma startswith_first (c : ascii) (p r : string) :
  startswith r (String c p) = true -> exists r', r = String c r'.
Proof.
  unfold startswith. destruct r as [|b r']; simpl; [discriminate|].
  destruct (ascii_dec c b) as [->|]; [eauto | discriminate].
Qed.

Lemma success_excludes_error (r : string) :
  startswith r "+RCLUSTER" = true -> startswith r "-RCLUSTER" = false.
Proof.
  intros H. destruct (startswith_first _ _ _ H) as [r' ->]. reflexivity.
Qed.

Lemma error_excludes_success (r : string) :
  startswith r "-RCLUSTER" = true -> startswith r "+RCLUSTER" = false.
Proof.
  intros H. destruct (startswith_first _ _ _ H) as [r' ->]. reflexivity.
Qed.

Lemma unexpected_is_not_failure (fp fp' r d : string) :
  unexpected_message fp r <> failure_message fp' d.
Proof. unfold unexpected_message, failure_message. simpl. discriminate. Qed.

(** *** The constructor *)

Lemma str_in_modes (m : string) :
  str_in m ["fast"; "detailed"] = true <-> m = "fast" \/ m = "detailed".
Proof.
  unfold str_in. simpl. rewrite !orb_true_iff, !String.eqb_eq.
  split; [intros [H|[H|H]]; auto; discriminate | intros [H|H]; auto].
Qed.

Lemma init_constructed ip port m banner t :
  init ip port m banner = Ok t -> constructed t /\ sock t = None /\ mode t = m.
Proof.
  unfold init. destruct (str_in m ["fast"; "detailed"]) eqn:Hm; [|discriminate].
  intros [= <-]. apply str_in_modes in Hm. unfold constructed. simpl. auto.
Qed.

(** *** Receiving *)

Lemma sock_recv_decode_text st s r rest :
  receives st s r rest ->
  sock_recv_decode (Some s) st = (Ok r, after_recv st rest).
Proof.
  intros [Hu Hr]. unfold sock_recv_decode, bind, get_env, put_env, ret.
  rewrite Hu, Hr. reflexivity.
Qed.

Lemma bind_ok {A B} (m : M A) (k : A -> M B) st a st' :
  m st = (Ok a, st') -> bind m k st = k a st'.
Proof. intros H. unfold bind. rewrite H. reflexivity. Qed.

Lemma bind_raise {A B} (m : M A) (k : A -> M B) st e st' :
  m st = (Raise e, st') -> bind m k st = (Raise e, st').
Proof. intros H. unfold bind. rewrite H. reflexivity. Qed.

Lemma validate_on_text st s r rest :
  receives st s r rest ->
  validate_server_acknowledgment (Some s) st =
  (if r =? init_response (tester st) then Ok tt
   else Raise (NoAcknowledgmentError (no_acknowledgment_message (tester st) r)),
   after_recv st rest).
Proof.
  intros Hrecv. unfold validate_server_acknowledgment.
  rewrite (bind_ok _ _ st (tester st) st) by reflexivity.
  rewrite (bind_ok _ _ _ _ _ (sock_recv_decode_text _ _ _ _ Hrecv)).
  destruct (r =? init_response (tester st)); reflexivity.
Qed.

(** C4: on a received banner text, validation returns normally exactly when
    the text is equal to the expected banner, and raises
    [NoAcknowledgmentError] for every other text. *)
Theorem C4_validate_iff_exact_banner (st : St) (s : Sock) (r : string)
        (rest : list recv_event) :
  receives st s r rest ->
  (fst (validate_server_acknowledgment (Some s) st) = Ok tt
   <-> r = init_response (tester st)) /\
  (r <> init_response (tester st) ->
   fst (validate_server_acknowledgment (Some s) st) =
   Raise (NoAcknowledgmentError (no_acknowledgment_message (tester st) r))).
Proof.
  intros Hrecv. rewrite (validate_on_text _ _ _ _ Hrecv). simpl fst.
  destruct (String.eqb_spec r (init_response (tester st))) as [Heq|Hne].
  - split; [split; auto | intros H; contradiction].
  - split; [split; [discriminate | intros H; contradiction] | reflexivity].
Qed.
(** *** Classifying the response *)

Lemma process_on_text st so r fp st1 :
  sock_recv_decode so st = (Ok r, st1) -> tester st1 = tester st ->
  process_server_response so fp st =
  (if startswith r (success_prefix (tester st)) && (mode (tester st) =? "detailed") then
     logger_info ("Success for " ++ fp ++ ": " ++ r)
   else if startswith r (error_prefix (tester st)) then
     raise (ServerResponseError
              (failure_message fp
                 (str_from (String.length (error_prefix (tester st) ++ " ")) r)))
   else raise (ServerResponseError (unexpected_message fp r))) st1.
Proof.
  intros Hrecv Ht. unfold process_server_response.
  rewrite (bind_ok _ _ st (tester st) st) by reflexivity.
  rewrite (bind_ok _ _ _ _ _ Hrecv). reflexivity.
Qed.

(** In 'detailed' mode a response with the success prefix is a success: the
    call returns normally and leaves one INFO record. *)
Lemma process_success_detailed st s fp r rest :
  constructed (tester st) -> mode (tester st) = "detailed" ->
  receives st s r rest ->
  startswith r "+RCLUSTER" = true ->
  process_server_response (Some s) fp st =
  (Ok tt, mkSt (tester st)
            (set_log (set_recv_script (env st) rest)
               (log (env st) ++ [(INFO, ("Success for " ++ fp ++ ": " ++ r)%string)]))).
Proof.
  intros (Hs & He & _) Hm Hrecv Hp.
  rewrite (process_on_text _ _ _ _ _ (sock_recv_decode_text _ _ _ _ Hrecv) eq_refl).
  rewrite Hs, Hm, Hp. reflexivity.
Qed.

(** C1 (as the code has it): in 'fast' mode a response that starts with the
    success prefix is not accepted; the call raises [ServerResponseError] with
    the "Unexpected response" message, because the first test of
    [process_server_response] also asks for 'detailed' mode. *)
Theorem C1_fast_mode_raises_on_success_prefix (st : St) (s : Sock) (fp : Path)
        (r : string) (rest : list recv_event) :
  constructed (tester st) -> mode (tester st) = "fast" ->
  receives st s r rest ->
  startswith r "+RCLUSTER" = true ->
  process_server_response (Some s) fp st =
  (Raise (ServerResponseError (unexpected_message fp r)), after_recv st rest).
Proof.
  intros (Hs & He & _) Hm Hrecv Hp.
  rewrite (process_on_text _ _ _ _ _ (sock_recv_decode_text _ _ _ _ Hrecv) eq_refl).
  rewrite Hs, He, Hm, Hp, (success_excludes_error _ Hp). reflexivity.
Qed.

(** C6: a response that starts with the error prefix makes
    [process_server_response] raise [ServerResponseError] with the "Failure"
    message, whose detail is the response from position
    [len(error_prefix + ' ')] on; for a response ["-RCLUSTER " ++ d] that
    detail is [d]. *)
Theorem C6_error_prefix_raises_failure_with_detail (st : St) (s : Sock)
        (fp : Path) (r : string) (rest : list recv_event) :
  constructed (tester st) ->
  receives st s r rest ->
  startswith r "-RCLUSTER" = true ->
  exists detail,
    process_server_response (Some s) fp st =
    (Raise (ServerResponseError (failure_message fp detail)), after_recv st rest) /\
    detail = str_from (String.length "-RCLUSTER ") r /\
    (forall d : string, r = ("-RCLUSTER " ++ d)%string -> detail = d).
Proof.
  intros (Hs & He & _) Hrecv Hp.
  exists (str_from (String.length "-RCLUSTER ") r). split; [|split].
  - rewrite (process_on_text _ _ _ _ _ (sock_recv_decode_text _ _ _ _ Hrecv) eq_refl).
    rewrite Hs, He, Hp, (error_excludes_success _ Hp). reflexivity.
  - reflexivity.
  - intros d ->. apply str_from_app.
Qed.

(** C7: a response that starts with neither prefix makes
    [process_server_response] raise [ServerResponseError] with the
    "Unexpected response" message carrying the whole response, in either
    mode: the call does not return normally and the message is no "Failure"
    message. *)
Theorem C7_neither_prefix_raises_unexpected (st : St) (s : Sock) (fp : Path)
        (r : string) (rest : list recv_event) :
  constructed (tester st) ->
  receives st s r rest ->
  startswith r "+RCLUSTER" = false ->
  startswith r "-RCLUSTER" = false ->
  process_server_response (Some s) fp st =
  (Raise (ServerResponseError (unexpected_message fp r)), after_recv st rest) /\
  fst (process_server_response (Some s) fp st) <> Ok tt /\
  (forall fp' d, fst (process_server_response (Some s) fp st)
                 <> Raise (ServerResponseError (failure_message fp' d))).
Proof.
  intros (Hs & He & _) Hrecv Hps Hpe.
  assert (Heq : process_server_response (Some s) fp st =
                (Raise (ServerResponseError (unexpected_message fp r)),
                 after_recv st rest)).
  { rewrite (process_on_text _ _ _ _ _ (sock_recv_decode_text _ _ _ _ Hrecv) eq_refl).
    rewrite Hs, He, Hps, Hpe. reflexivity. }
  rewrite Heq. simpl fst. split; [reflexivity | split].
  - discriminate.
  - intros fp' d H. apply (unexpected_is_not_failure fp fp' r d). congruence.
Qed.

(** *** Sending *)

Lemma read_file_found st fp data :
  lookup fp (fs (env st)) = Some data ->
  read_file fp st = (Ok data, st).
Proof.
  intros H. unfold read_file, bind, get_env, ret. rewrite H.
  destruct st; reflexivity.
Qed.

Lemma sock_sendall_wire st s data :
  wire (env (snd (sock_sendall (Some s) data st))) = wire (env st) ++ [(s, data)].
Proof.
  unfold sock_sendall, bind, get_env, put_env, raise.
  destruct (negb (sock_usable (env st) s)); [reflexivity|].
  destruct (sendall_script (env st)) as [|[msg|] rest]; reflexivity.
Qed.

(** C5: for a file with contents [data], [send_rdf_data] makes exactly one
    [sendall] call and its argument is the three bytes of "BUF" followed by
    [data], unchanged. *)
Theorem C5_send_rdf_data_sends_BUF_then_contents (st : St) (s : Sock)
        (fp : Path) (data : list byte) :
  lookup fp (fs (env st)) = Some data ->
  wire (env (snd (send_rdf_data (Some s) fp st)))
  = wire (env st) ++ [(s, BUF ++ data)] /\
  BUF = map byte_of_ascii (list_ascii_of_string "BUF") /\
  length (BUF ++ data) = 3 + length data.
Proof.
  intros Hf. split; [|split].
  - unfold send_rdf_data.
    rewrite (bind_ok _ _ _ _ _ (read_file_found _ _ _ Hf)).
    apply sock_sendall_wire.
  - reflexivity.
  - reflexivity.
Qed.
(** *** What every call preserves *)

Lemma frame_refl st : frame st st.
Proof. split; [reflexivity | apply incl_refl]. Qed.

Lemma frame_trans a b c : frame a b -> frame b c -> frame a c.
Proof.
  intros [H1 H2] [H3 H4]. split; [congruence | eapply incl_tran; eassumption].
Qed.

Section Triples.

Variable R : St -> St -> Prop.
Hypothesis R_refl : forall st, R st st.
Hypothesis R_trans : forall a b c, R a b -> R b c -> R a c.
Hypothesis R_frame : forall a b, frame a b -> R a b.

(** [m] moves every state along [R] and raises no [ZeroDivisionError]. *)
Definition sat {A} (m : M A) : Prop :=
  forall st, R st (snd (m st)) /\
             forall e, fst (m st) = Raise e -> not_zero_division e.

Lemma sat_ret {A} (a : A) : sat (ret a).
Proof. intros st. split; [apply R_refl | discriminate]. Qed.

Lemma sat_raise {A} (e : exn) : not_zero_division e -> sat (@raise A e).
Proof. intros He st. split; [apply R_refl | intros e' [= <-]; exact He]. Qed.

Lemma sat_bind {A B} (m : M A) (k : A -> M B) :
  sat m -> (forall a, sat (k a)) -> sat (bind m k).
Proof.
  intros Hm Hk st. unfold bind. specialize (Hm st).
  destruct (m st) as [[a|e] st1]; simpl in Hm.
  - destruct (Hk a st1) as [H1 H2]. split; [eapply R_trans; [apply Hm | exact H1] | exact H2].
  - split; [apply Hm | intros e' [= <-]; apply (proj2 Hm e); reflexivity].
Qed.

Lemma sat_try_except {A} (m : M A) (h : exn -> option (M A)) :
  sat m -> (forall e k, h e = Some k -> sat k) -> sat (try_except m h).
Proof.
  intros Hm Hh st. unfold try_except. specialize (Hm st).
  destruct (m st) as [[a|e] st1]; simpl in Hm.
  - split; [apply Hm | discriminate].
  - destruct (h e) as [k|] eqn:He.
    + destruct (Hh e k He st1) as [H1 H2].
      split; [eapply R_trans; [apply Hm | exact H1] | exact H2].
    + split; [apply Hm | exact (proj2 Hm)].
Qed.

Lemma sat_frame {A} (m : M A) :
  (forall st, frame st (snd (m st)) /\
              forall e, fst (m st) = Raise e -> not_zero_division e) ->
  sat m.
Proof. intros H st. destruct (H st) as [H1 H2]. split; [apply R_frame, H1 | exact H2]. Qed.

Ltac prim :=
  apply sat_frame; intros st;
  unfold bind, get_env, put_env, get_self, ret, raise;
  repeat match goal with
         | |- context [match ?x with _ => _ end] => destruct x
         end;
  unfold set_connect_script, set_recv_script, set_sendall_script, set_ticks,
    set_next_sock, set_connected, set_wire, set_closes, set_log, set_stderr, frame;
  simpl; (split; [split; [reflexivity | auto using incl_refl, incl_appl]
                 | intros ? H; inversion H; exact I]).

Lemma sat_get_self : sat get_self.
Proof. unfold get_self. prim. Qed.

Lemma sat_time_time : sat time_time.
Proof. unfold time_time. prim. Qed.

Lemma sat_logger_info msg : sat (logger_info msg).
Proof. unfold logger_info. prim. Qed.

Lemma sat_logger_error msg : sat (logger_error msg).
Proof. unfold logger_error. prim. Qed.

Lemma sat_print_stderr msg : sat (print_stderr msg).
Proof. unfold print_stderr. prim. Qed.

Lemma sat_socket_socket : sat socket_socket.
Proof. unfold socket_socket. prim. Qed.

Lemma sat_sock_settimeout s n : sat (sock_settimeout s n).
Proof. unfold sock_settimeout. prim. Qed.

Lemma sat_sock_connect s ip port : sat (sock_connect s ip port).
Proof. unfold sock_connect. prim. Qed.

Lemma sat_sock_recv_decode so : sat (sock_recv_decode so).
Proof. unfold sock_recv_decode. prim. Qed.

Lemma sat_sock_sendall so data : sat (sock_sendall so data).
Proof. unfold sock_sendall. prim. Qed.

Lemma sat_sock_close so : sat (sock_close so).
Proof. unfold sock_close. prim. Qed.

Lemma sat_read_file fp : sat (read_file fp).
Proof. unfold read_file. prim. Qed.

Lemma sat_glob_xml d : sat (glob_xml d).
Proof. unfold glob_xml. prim. Qed.

(** Storing a connected socket in [self.sock] is a step of [R] too. *)
Hypothesis R_put_sock :
  forall st s, In s (connected (env st)) ->
               R st (mkSt (set_sock (tester st) (Some s)) (env st)).

#[local] Hint Resolve sat_ret sat_get_self sat_time_time sat_logger_info
  sat_logger_error sat_print_stderr sat_socket_socket sat_sock_settimeout
  sat_sock_connect sat_sock_recv_decode sat_sock_sendall sat_sock_close
  sat_read_file sat_glob_xml : sat.

Ltac sat_go :=
  repeat first
    [ solve [auto with sat nocore]
    | apply sat_raise; exact I
    | apply sat_bind; [|intros ?]
    | match goal with
      | |- sat (if ?b then _ else _) => destruct b
      | |- sat (match ?x with _ => _ end) => destruct x
      end ].

Lemma sat_count_xml_files d : sat (count_xml_files d).
Proof. unfold count_xml_files. sat_go. Qed.

Lemma sat_establish_connection : sat establish_connection.
Proof.
  unfold establish_connection. sat_go.
  apply sat_try_except; [sat_go|].
  intros e k H. destruct e; try discriminate. injection H as <-. sat_go.
Qed.

Lemma sat_validate_server_acknowledgment so :
  sat (validate_server_acknowledgment so).
Proof. unfold validate_server_acknowledgment. sat_go. Qed.

Lemma sat_send_rdf_data so fp : sat (send_rdf_data so fp).
Proof. unfold send_rdf_data. sat_go. Qed.

Lemma sat_process_server_response so fp : sat (process_server_response so fp).
Proof. unfold process_server_response. sat_go. Qed.

#[local] Hint Resolve sat_count_xml_files sat_establish_connection
  sat_validate_server_acknowledgment sat_send_rdf_data
  sat_process_server_response : sat.

Lemma sat_send_file fp : sat (send_file fp).
Proof.
  unfold send_file. sat_go.
  apply sat_try_except; [sat_go|].
  intros e k H. destruct (file_local e); [|discriminate]. injection H as <-. sat_go.
Qed.

#[local] Hint Resolve sat_send_file : sat.

Lemma sat_send_loop files : forall ft ec, sat (send_loop files ft ec).
Proof.
  induction files as [|fp rest IH]; intros ft ec; simpl; sat_go; apply IH.
Qed.

Lemma sat_report ft ec : sat (report ft ec).
Proof.
  unfold report. destruct ft as [|t ft]; simpl; unfold truediv; sat_go.
Qed.

#[local] Hint Resolve sat_send_loop sat_report : sat.

Lemma establish_connection_connected st s st1 :
  establish_connection st = (Ok s, st1) -> In s (connected (env st1)).
Proof.
  unfold establish_connection, try_except, bind, get_self, socket_socket,
    sock_settimeout, sock_connect, get_env, put_env, ret, raise,
    set_next_sock, set_connected, set_connect_script.
  cbn. destruct (connect_script (env st)) as [|[msg|] rest]; cbn;
    try destruct (valid_port (server_port (tester st))); cbn;
    intros H; inversion H; subst; cbn; apply in_or_app; right; left; reflexivity.
Qed.

Lemma sat_establish_and_validate_connection : sat establish_and_validate_connection.
Proof.
  unfold establish_and_validate_connection.
  apply sat_bind; [apply sat_get_self|]. intros self.
  destruct (sock self); [apply sat_ret|].
  intros st. destruct (sat_establish_connection st) as [H1 H2].
  destruct (establish_connection st) as [[s|e] st1] eqn:Hec; simpl in H1, H2.
  - assert (Hs := establish_connection_connected _ _ _ Hec).
    rewrite (bind_ok _ _ _ _ _ Hec).
    rewrite (bind_ok _ _ st1 tt (mkSt (set_sock (tester st1) (Some s)) (env st1)))
      by reflexivity.
    assert (Hk : sat (self0 <- get_self ;;
                      validate_server_acknowledgment (sock self0))) by sat_go.
    destruct (Hk (mkSt (set_sock (tester st1) (Some s)) (env st1))) as [H3 H4].
    split; [|exact H4].
    eapply R_trans; [exact H1|]. eapply R_trans; [apply R_put_sock, Hs | exact H3].
  - rewrite (bind_raise _ _ _ _ _ Hec). simpl.
    split; [exact H1 | intros e' [= <-]; apply (H2 e); reflexivity].
Qed.

#[local] Hint Resolve sat_establish_and_validate_connection : sat.

Lemma sat_replay_xmlnews d : sat (replay_xmlnews d).
Proof.
  unfold replay_xmlnews. apply sat_bind.
  - apply sat_try_except; [sat_go|].
    intros e k H. destruct (run_fatal e); [|discriminate]. injection H as <-. sat_go.
  - intros proceed. sat_go.
Qed.

#[local] Hint Resolve sat_replay_xmlnews : sat.

Lemma sat_call m : sat (call m).
Proof. destruct m; simpl; sat_go. Qed.

End Triples.

(** *** Running the model on a partly known state *)

Ltac open_state st :=
  let t := fresh "t" in let w := fresh "w" in
  destruct st as [t w]; destruct t, w; cbn in *; subst.

Ltac run_model :=
  unfold replay_xmlnews, report, truediv, send_file, send_rdf_data,
    process_server_response, establish_and_validate_connection,
    establish_connection, validate_server_acknowledgment, count_xml_files,
    glob_xml, read_file, sock_close, sock_sendall, sock_recv_decode,
    sock_connect, sock_settimeout, socket_socket, print_stderr, logger_error,
    logger_info, time_time, try_except, bind, get_self, get_env, put_env,
    put_sock, ret, raise, sock_usable, mem_sock,
    set_connect_script, set_recv_script, set_sendall_script, set_ticks,
    set_next_sock, set_connected, set_wire, set_closes, set_log, set_stderr in *;
  cbn in *.

(** Case analysis on everything a run of the model inspects. *)
Ltac split_cases :=
  repeat (cbn in *;
          match goal with
          | |- context [match ?x with _ => _ end] => is_var x; destruct x
          | |- context [match ?x with _ => _ end] =>
              lazymatch x with
              | context [match _ with _ => _ end] => fail
              | _ => destruct x eqn:?
              end
          end).

(** *** The connection handle *)

Lemma inv_step_refl st : inv_step st st.
Proof. intros H. exact H. Qed.

Lemma inv_step_trans a b c : inv_step a b -> inv_step b c -> inv_step a c.
Proof. unfold inv_step. auto. Qed.

Lemma inv_step_frame a b : frame a b -> inv_step a b.
Proof.
  intros [Ht Hc] Ha s Hs. apply Hc, Ha. rewrite <- Ht. exact Hs.
Qed.

Lemma inv_step_put_sock st s :
  In s (connected (env st)) ->
  inv_step st (mkSt (set_sock (tester st) (Some s)) (env st)).
Proof. intros Hs _ s' [= <-]. exact Hs. Qed.

Lemma inv_step_call m st : handle_inv st -> handle_inv (snd (call m st)).
Proof.
  exact (proj1 (sat_call inv_step inv_step_refl inv_step_trans inv_step_frame
                  inv_step_put_sock m st)).
Qed.

(** C9 (amended): in every state a tester reaches, the connection handle is
    present only if it is a socket whose connect succeeded; so while no
    connect has succeeded the session holds no handle. *)
Theorem C9_handle_present_only_after_connect (st : St) :
  reachable st ->
  (forall s, sock (tester st) = Some s -> In s (connected (env st))) /\
  (connected (env st) = [] -> sock (tester st) = None).
Proof.
  intros Hreach.
  assert (Hinv : handle_inv st).
  { induction Hreach as [ip port m banner t w Hinit | m st Hreach IH].
    - intros s Hs. apply init_constructed in Hinit. simpl in Hs.
      destruct Hinit as (_ & Hnone & _). congruence.
    - exact (inv_step_call m st IH). }
  split; [exact Hinv|].
  intros Hc. destruct (sock (tester st)) as [s|] eqn:Hs; [|reflexivity].
  specialize (Hinv s Hs). rewrite Hc in Hinv. contradiction.
Qed.

(** A failed banner validation leaves the new handle in [self.sock]. *)
Lemma no_acknowledgment_keeps_handle st r rest cs :
  sock (tester st) = None ->
  connect_script (env st) = None :: cs ->
  valid_port (server_port (tester st)) = true ->
  mem_sock (next_sock (env st)) (closes (env st)) = false ->
  recv_script (env st) = RecvText r :: rest ->
  r <> init_response (tester st) ->
  exists st',
    establish_and_validate_connection st =
    (Raise (NoAcknowledgmentError (no_acknowledgment_message (tester st) r)), st') /\
    sock (tester st') = Some (next_sock (env st)).
Proof.
  intros Hs Hc Hp Hcl Hr Hne. open_state st. run_model. rewrite Hp. cbn.
  rewrite existsb_app, Hcl. cbn. rewrite Nat.eqb_refl, orb_true_r. cbn.
  destruct (String.eqb_spec r init_response0); [contradiction|].
  cbn. eexists. split; reflexivity.
Qed.

(** *** The modes of a tester *)

Lemma same_config_call m st : same_config st (snd (call m st)).
Proof.
  refine (proj1 (sat_call same_config _ _ _ _ m st)).
  - intros st0. reflexivity.
  - unfold same_config. intros a b c H1 H2. congruence.
  - unfold same_config. intros a b [H _]. rewrite H. reflexivity.
  - intros st0 s _. reflexivity.
Qed.

(** Every tester a run goes through has the fields [__init__] gave it. *)
Lemma reachable_constructed st : reachable st -> constructed (tester st).
Proof.
  induction 1 as [ip port m banner t w Hinit | m st Hreach IH].
  - apply init_constructed in Hinit. apply Hinit.
  - pose proof (same_config_call m st) as Hc. unfold same_config in Hc.
    destruct IH as (Hs & He & Hm). unfold constructed.
    replace (success_prefix (tester (snd (call m st))))
      with (success_prefix (set_sock (tester (snd (call m st))) None)) by reflexivity.
    replace (error_prefix (tester (snd (call m st))))
      with (error_prefix (set_sock (tester (snd (call m st))) None)) by reflexivity.
    replace (mode (tester (snd (call m st))))
      with (mode (set_sock (tester (snd (call m st))) None)) by reflexivity.
    rewrite Hc. exact (conj Hs (conj He Hm)).
Qed.

(** C10: the constructor completes exactly for the modes "fast" and
    "detailed"; for any other mode string it fails the assertion; and every
    tester a run goes through has one of the two modes. *)
Theorem C10_init_accepts_exactly_fast_and_detailed (ip : string) (port : Z)
        (m banner : string) :
  ((exists t, init ip port m banner = Ok t /\ mode t = m)
   <-> (m = "fast" \/ m = "detailed")) /\
  ((exists msg, init ip port m banner = Raise (AssertionError msg))
   <-> ~ (m = "fast" \/ m = "detailed")) /\
  (forall st, reachable st ->
              mode (tester st) = "fast" \/ mode (tester st) = "detailed").
Proof.
  assert (Hreach : forall st, reachable st ->
                     mode (tester st) = "fast" \/ mode (tester st) = "detailed").
  { intros st H. apply (reachable_constructed st H). }
  pose proof (str_in_modes m) as Hm. unfold init.
  destruct (str_in m ["fast"; "detailed"]).
  - assert (Hok : m = "fast" \/ m = "detailed") by (apply Hm; reflexivity).
    split; [split | split; [split | exact Hreach]].
    + intros _. exact Hok.
    + intros _. eexists. split; reflexivity.
    + intros [msg H]. discriminate.
    + intros H. contradiction.
  - assert (Hno : ~ (m = "fast" \/ m = "detailed")).
    { intros H. apply Hm in H. discriminate. }
    split; [split | split; [split | exact Hreach]].
    + intros [t [H _]]. discriminate.
    + intros H. contradiction.
    + intros _. exact Hno.
    + intros _. eexists. reflexivity.
Qed.

(** *** Closing the socket *)

(** C2 (as the code has it): when the connect fails, [self.sock] is still
    [None] in the handler of [replay_xmlnews], so [self.sock.close()] raises
    [AttributeError] and no socket is closed. *)
Theorem C2_connect_failure_close_raises (st : St) (d : Path) (msg : string)
        (cs : list (option string)) :
  sock (tester st) = None ->
  connect_script (env st) = Some msg :: cs ->
  fst (replay_xmlnews d st) = Raise (AttributeError (none_has_no_attribute "close")) /\
  closes (env (snd (replay_xmlnews d st))) = closes (env st).
Proof.
  intros Hs Hc. open_state st. run_model. split; reflexivity.
Qed.

(** On the banner mismatch path the handler closes the socket, once. *)
Lemma replay_no_acknowledgment_closes_once st d r rest cs :
  sock (tester st) = None ->
  connect_script (env st) = None :: cs ->
  valid_port (server_port (tester st)) = true ->
  mem_sock (next_sock (env st)) (closes (env st)) = false ->
  recv_script (env st) = RecvText r :: rest ->
  r <> init_response (tester st) ->
  fst (replay_xmlnews d st) = Ok tt /\
  closes (env (snd (replay_xmlnews d st))) = closes (env st) ++ [next_sock (env st)].
Proof.
  intros Hs Hc Hp Hcl Hr Hne. open_state st. run_model. rewrite Hp. cbn.
  rewrite existsb_app, Hcl. cbn. rewrite Nat.eqb_refl, orb_true_r. cbn.
  destruct (String.eqb_spec r init_response0); [contradiction|].
  cbn. split; reflexivity.
Qed.

(** *** Faults while a file is exchanged *)

(** A [ServerResponseError] is caught by [send_file]: logged, printed, and
    the file is reported as failed. *)
Lemma send_file_catches_server_response_error st s fp data r rest :
  constructed (tester st) ->
  sock (tester st) = Some s ->
  sock_usable (env st) s = true ->
  lookup fp (fs (env st)) = Some data ->
  sendall_script (env st) = [] ->
  recv_script (env st) = RecvText r :: rest ->
  startswith r "+RCLUSTER" = false ->
  exists t msg,
    fst (send_file fp st) = Ok (t, false) /\
    log (env (snd (send_file fp st))) = log (env st) ++ [(ERROR, msg)] /\
    stderr (env (snd (send_file fp st))) = stderr (env st) ++ [msg].
Proof.
  intros (Hsp & Hep & _) Hs Hu Hf Hss Hr Hp. open_state st. run_model.
  rewrite Hf. cbn. rewrite Hu. cbn. rewrite Hu. cbn.
  unfold startswith in *. rewrite Hp. cbn.
  destruct (String.prefix "-RCLUSTER" r); cbn; eexists; eexists;
    (split; [reflexivity | split; reflexivity]).
Qed.

(** C3 (as the code has it): a socket error raised by [sendall] is of none of
    the classes [send_file] catches; it leaves [send_file], and with it the
    loop of [replay_xmlnews], so the files after it are not sent. *)
Theorem C3_socket_error_escapes_send_file (st : St) (s : Sock) (fp : Path)
        (files : list Path) (ft : list time) (ec : nat) (data : list byte)
        (msg : string) (ss : list (option string)) :
  sock (tester st) = Some s ->
  sock_usable (env st) s = true ->
  lookup fp (fs (env st)) = Some data ->
  sendall_script (env st) = Some msg :: ss ->
  fst (send_file fp st) = Raise (OSError msg) /\
  fst (send_loop (fp :: files) ft ec st) = Raise (OSError msg) /\
  wire (env (snd (send_loop (fp :: files) ft ec st)))
  = wire (env st) ++ [(s, BUF ++ data)].
Proof.
  intros Hs Hu Hf Hss. open_state st. cbn [send_loop]. run_model.
  rewrite Hf. cbn. rewrite Hu. cbn.
  destruct (mode0 =? "detailed"); cbn; rewrite Hf; cbn; rewrite Hu; cbn;
    repeat split; reflexivity.
Qed.

(** *** The summary *)

Lemma bind_assoc {A B C} (m : M A) (k : A -> M B) (h : B -> M C) st :
  bind (bind m k) h st = bind m (fun a => bind (k a) h) st.
Proof. unfold bind. destruct (m st) as [[a|e] st1]; reflexivity. Qed.

Lemma bind_ret_l {A B} (a : A) (k : A -> M B) st : bind (ret a) k st = k a st.
Proof. reflexivity. Qed.

Lemma bind_ext {A B} (m : M A) (k k' : A -> M B) st :
  (forall a st', k a st' = k' a st') -> bind m k st = bind m k' st.
Proof. intros H. unfold bind. destruct (m st) as [[a|e] st1]; [apply H | reflexivity]. Qed.

Lemma send_loop_outcomes files :
  forall ft ec st,
    send_loop files ft ec st =
    (os <- transfer_outcomes files ;;
     ret (ft ++ successful_durations os, ec + failed_count os)) st.
Proof.
  induction files as [|fp rest IH]; intros ft ec st.
  - cbn. unfold ret. rewrite app_nil_r, Nat.add_0_r. reflexivity.
  - cbn [send_loop transfer_outcomes].
    rewrite bind_assoc. apply bind_ext. intros self st1.
    rewrite bind_assoc. apply bind_ext. intros u st2.
    rewrite bind_assoc. apply bind_ext. intros [t ok] st3.
    rewrite bind_assoc.
    destruct ok; rewrite IH; apply bind_ext; intros os st4; rewrite bind_ret_l;
      unfold ret, successful_durations, failed_count; cbn.
    + rewrite <- app_assoc. reflexivity.
    + rewrite <- Nat.add_assoc. reflexivity.
Qed.

(** The summary never fails: the division is made only for a non-empty list. *)
Lemma report_records ft ec st :
  report ft ec st =
  (Ok tt, add_log st (summary_records (length ft) ec (py_sum ft))).
Proof.
  unfold report, summary_records, add_log. destruct ft as [|t ft]; cbn [length Nat.ltb Nat.leb].
  - run_model. reflexivity.
  - run_model. rewrite <- app_assoc. reflexivity.
Qed.

Lemma try_except_ok {A} (m : M A) (h : exn -> option (M A)) st a st' :
  m st = (Ok a, st') -> try_except m h st = (Ok a, st').
Proof. intros H. unfold try_except. rewrite H. reflexivity. Qed.

Lemma count_xml_files_listed d st :
  count_xml_files d st
  = (Ok (length (listed (env st) d), listed (env st) d), st).
Proof.
  unfold count_xml_files, glob_xml, listed, bind, get_env, ret.
  destruct (lookup d (xml_listing (env st))); reflexivity.
Qed.

(** A handshake that returns leaves a handle in [self.sock]. *)
Lemma handshake_ok_holds_handle st u st1 :
  establish_and_validate_connection st = (Ok u, st1) ->
  exists s, sock (tester st1) = Some s.
Proof.
  revert st1. open_state st. run_model. intros st1.
  split_cases; intros H; inversion H; subst; cbn; eauto.
Qed.

(** C8: in a run of [replay_xmlnews] whose handshake returns and whose loop
    over the listed files completes with outcomes [os], the run returns and
    its last log records are the summary: the number of successes, the number
    of errors and the total, which is the sum of the durations of the
    successful transfers, and then the average, that total divided by the
    number of successes, exactly when there is a success; with no success
    there is no average line.  No run of [replay_xmlnews] raises
    [ZeroDivisionError]. *)
Theorem C8_summary_total_and_average (d : Path) (st st1 st2 : St)
        (os : list (time * bool)) :
  establish_and_validate_connection st = (Ok tt, st1) ->
  transfer_outcomes (listed (env st1) d) st1 = (Ok os, st2) ->
  let durations := successful_durations os in
  let total := fold_left tadd durations tzero in
  let out := replay_xmlnews d st in
  fst out = Ok tt /\
  log (env (snd out))
  = log (env st2) ++ summary_records (length durations) (failed_count os) total /\
  (length durations = 0 ->
   log (env (snd out))
   = log (env st2) ++ [(INFO, processed_line 0 (failed_count os) tzero)]) /\
  (0 < length durations ->
   log (env (snd out))
   = log (env st2)
     ++ [(INFO, processed_line (length durations) (failed_count os) total);
         (INFO, average_line (tdiv total (length durations)))]) /\
  (forall d0 st0 msg,
      fst (replay_xmlnews d0 st0) <> Raise (ZeroDivisionError msg)).
Proof.
  intros Heav Hos durations total out.
  destruct (handshake_ok_holds_handle _ _ _ Heav) as [s Hs].
  assert (Hloop : send_loop (listed (env st1) d) [] 0 st1
                  = (Ok (durations, failed_count os), st2)).
  { rewrite send_loop_outcomes. rewrite (bind_ok _ _ _ _ _ Hos). reflexivity. }
  assert (Ht : tester st2 = tester st1).
  { pose proof (proj1 (sat_send_loop frame frame_refl frame_trans (fun a b H => H)
                         (listed (env st1) d) [] 0 st1)) as [Hf _].
    rewrite Hloop in Hf. exact Hf. }
  pose (st3 := add_log st2 (summary_records (length durations) (failed_count os) total)).
  assert (Hrun : replay_xmlnews d st
                 = (Ok tt, mkSt (tester st3)
                             (set_closes (env st3) (closes (env st3) ++ [s])))).
  { unfold replay_xmlnews.
    rewrite (bind_ok _ _ st true st1)
      by (apply try_except_ok; rewrite (bind_ok _ _ _ _ _ Heav); reflexivity).
    cbn [negb].
    rewrite (bind_ok _ _ _ _ _ (count_xml_files_listed d st1)). cbn [snd].
    rewrite (bind_ok _ _ _ _ _ Hloop). cbn [fst snd].
    rewrite (bind_ok _ _ _ _ _ (report_records durations (failed_count os) st2)).
    fold total. fold st3.
    rewrite (bind_ok _ _ st3 (tester st3) st3) by reflexivity.
    replace (sock (tester st3)) with (Some s)
      by (unfold st3, add_log; cbn; rewrite Ht; symmetry; exact Hs).
    reflexivity. }
  assert (Hlog : log (env (snd out))
                 = log (env st2)
                   ++ summary_records (length durations) (failed_count os) total).
  { unfold out. rewrite Hrun. reflexivity. }
  split; [unfold out; rewrite Hrun; reflexivity|].
  split; [exact Hlog|]. split; [|split].
  - intros H0. rewrite Hlog. unfold total.
    destruct durations; [reflexivity | discriminate].
  - intros Hpos. rewrite Hlog. unfold summary_records.
    destruct (length durations); [lia | reflexivity].
  - intros d0 st0 msg H.
    destruct (sat_replay_xmlnews inv_step inv_step_refl inv_step_trans
                inv_step_frame inv_step_put_sock d0 st0) as [_ Hz].
    exact (Hz _ H).
Qed.

(** ** Further properties of the methods *)

(** *** Connecting *)


(** *** The handshake *)

(** X2: on a tester without a handle, when the connect succeeds and the
    banner read is the expected one, the handshake returns normally, stores
    the new socket in [self.sock], reads exactly one message and sends,
    closes and logs nothing. *)
Theorem handshake_success (st : St) (rest : list recv_event) :
  sock (tester st) = None ->
  next_connect_ok (env st) = true ->
  valid_port (server_port (tester st)) = true ->
  mem_sock (next_sock (env st)) (closes (env st)) = false ->
  recv_script (env st) = RecvText (init_response (tester st)) :: rest ->
  let out := establish_and_validate_connection st in
  fst out = Ok tt /\
  sock (tester (snd out)) = Some (next_sock (env st)) /\
  connected (env (snd out)) = connected (env st) ++ [next_sock (env st)] /\
  recv_script (env (snd out)) = rest /\
  wire (env (snd out)) = wire (env st) /\
  closes (env (snd out)) = closes (env st) /\
  log (env (snd out)) = log (env st).
Proof.
  intros Hs Hc Hp Hcl Hr. unfold next_connect_ok in Hc. open_state st. run_model.
  destruct connect_script0 as [|[msg|] cs]; try discriminate; cbn;
    rewrite Hp; cbn; rewrite existsb_app, Hcl; cbn; rewrite Nat.eqb_refl, orb_true_r; cbn;
    rewrite String.eqb_refl; cbn; repeat split; reflexivity.
Qed.

(** With a handle in [self.sock] the handshake does nothing at all. *)
Lemma handshake_skipped st s :
  sock (tester st) = Some s ->
  establish_and_validate_connection st = (Ok tt, st).
Proof.
  intros Hs. unfold establish_and_validate_connection.
  rewrite (bind_ok _ _ st (tester st) st) by reflexivity. rewrite Hs. reflexivity.
Qed.

(** X3: when the handshake fails with [NoAcknowledgmentError], the state it
    leaves holds a handle, and a second handshake in that state returns
    normally without connecting, reading or validating anything. *)
Theorem handshake_retry_is_not_validated (st0 st : St) (msg : string) :
  establish_and_validate_connection st0 = (Raise (NoAcknowledgmentError msg), st) ->
  sock (tester st) <> None /\
  establish_and_validate_connection st = (Ok tt, st).
Proof.
  intros H.
  assert (Hs : exists s, sock (tester st) = Some s).
  { revert H. open_state st0. run_model. split_cases; intros H; inversion H; subst;
      cbn; eauto. }
  destruct Hs as [s Hs]. split; [congruence | exact (handshake_skipped st s Hs)].
Qed.

Lemma handshake_quiet (st : St) :
  let st' := snd (establish_and_validate_connection st) in
  wire (env st') = wire (env st) /\
  closes (env st') = closes (env st) /\
  log (env st') = log (env st) /\
  stderr (env st') = stderr (env st) /\
  (recv_script (env st') = recv_script (env st) \/
   exists ev, recv_script (env st) = ev :: recv_script (env st')).
Proof.
  open_state st. run_model. split_cases; repeat split; eauto.
Qed.

(** X4: whatever the environment does, the handshake sends no byte, closes
    no socket, writes no log record and nothing to stderr, and reads at
    most one message. *)
Theorem handshake_sends_and_logs_nothing (st : St) :
  let st' := snd (establish_and_validate_connection st) in
  wire (env st') = wire (env st) /\
  closes (env st') = closes (env st) /\
  log (env st') = log (env st) /\
  stderr (env st') = stderr (env st) /\
  (recv_script (env st') = recv_script (env st) \/
   exists ev, recv_script (env st) = ev :: recv_script (env st')).
Proof.
  open_state st. run_model. split_cases; repeat split; eauto.
Qed.

(** *** The classifier in each mode *)

(** X5: in 'detailed' mode the three outcomes of [process_server_response]
    follow the prefixes and nothing else: it returns normally exactly for a
    response with the success prefix, raises a "Failure" error exactly for
    one with the error prefix, and an "Unexpected response" error exactly
    for one with neither. *)
Theorem detailed_mode_classification (st : St) (s : Sock) (fp : Path)
        (r : string) (rest : list recv_event) :
  constructed (tester st) -> mode (tester st) = "detailed" ->
  receives st s r rest ->
  let out := fst (process_server_response (Some s) fp st) in
  (out = Ok tt <-> startswith r "+RCLUSTER" = true) /\
  ((exists d, out = Raise (ServerResponseError (failure_message fp d)))
   <-> startswith r "-RCLUSTER" = true) /\
  (out = Raise (ServerResponseError (unexpected_message fp r))
   <-> startswith r "+RCLUSTER" = false /\ startswith r "-RCLUSTER" = false).
Proof.
  intros (Hs & He & Hmd) Hm Hrecv out. subst out.
  rewrite (process_on_text _ _ _ _ _ (sock_recv_decode_text _ _ _ _ Hrecv) eq_refl).
  rewrite Hs, He, Hm. cbn [String.eqb].
  replace ("detailed" =? "detailed") with true by reflexivity.
  destruct (startswith r "+RCLUSTER") eqn:Hp.
  - rewrite (success_excludes_error _ Hp). cbn.
    split; [|split].
    + split; reflexivity || auto.
    + split; [intros [d H]; discriminate | discriminate].
    + split; [discriminate | intros [H _]; discriminate].
  - cbn [andb]. destruct (startswith r "-RCLUSTER") eqn:Hq; cbn.
    + split; [|split].
      * split; discriminate.
      * split; [reflexivity | intros _; eexists; reflexivity].
      * split; [|intros [_ H]; discriminate].
        intros H. exfalso.
        apply (unexpected_is_not_failure fp fp r
                 (str_from (String.length "-RCLUSTER ") r)). congruence.
    + split; [|split].
      * split; discriminate.
      * split; [|discriminate]. intros [d H]. exfalso.
        apply (unexpected_is_not_failure fp fp r d). congruence.
      * split; [auto | reflexivity].
Qed.

(** In 'fast' mode [process_server_response] never returns normally. *)
Lemma fast_mode_process_never_returns st so fp u :
  mode (tester st) = "fast" ->
  fst (process_server_response so fp st) <> Ok u.
Proof.
  intros Hm. unfold process_server_response.
  rewrite (bind_ok _ _ st (tester st) st) by reflexivity.
  unfold bind. destruct (sock_recv_decode so st) as [[r|e] st1]; [|discriminate].
  rewrite Hm. replace ("fast" =? "detailed") with false by reflexivity.
  rewrite andb_false_r.
  destruct (startswith r (error_prefix (tester st))); discriminate.
Qed.

Lemma frame_send_file fp st : frame st (snd (send_file fp st)).
Proof. exact (proj1 (sat_send_file frame frame_refl frame_trans (fun a b H => H) fp st)). Qed.

Lemma frame_logger_info msg st : frame st (snd (logger_info msg st)).
Proof. exact (proj1 (sat_logger_info frame (fun a b H => H) msg st)). Qed.

Lemma bind_inv_ok {A B} (m : M A) (k : A -> M B) st b st' :
  bind m k st = (Ok b, st') ->
  exists a st1, m st = (Ok a, st1) /\ k a st1 = (Ok b, st').
Proof.
  unfold bind. destruct (m st) as [[a|e] st1]; [eauto | discriminate].
Qed.

Lemma try_except_inv_ok {A} (m : M A) (h : exn -> option (M A)) st a st' :
  try_except m h st = (Ok a, st') ->
  m st = (Ok a, st') \/
  exists e st1 k, m st = (Raise e, st1) /\ h e = Some k /\ k st1 = (Ok a, st').
Proof.
  unfold try_except. destruct (m st) as [[a0|e] st1]; [auto|].
  destruct (h e) as [k|] eqn:Hh; [|discriminate].
  intros H. right. eauto 6.
Qed.

Lemma fast_mode_flag_is_false st fp t ok st' :
  mode (tester st) = "fast" ->
  send_file fp st = (Ok (t, ok), st') ->
  ok = false.
Proof.
  intros Hm Hrun.
  unfold send_file in Hrun.
  apply bind_inv_ok in Hrun as (t0 & st1 & Ht & Hrun).
  apply bind_inv_ok in Hrun as (flag & st4 & Htry & Hrun).
  apply bind_inv_ok in Hrun as (t1 & st5 & _ & Hrun). injection Hrun as _ <- _.
  assert (Hm1 : mode (tester st1) = "fast").
  { pose proof (proj1 (sat_time_time frame (fun a b H => H) st)) as [Hf _].
    rewrite Ht in Hf. cbn in Hf. rewrite Hf. exact Hm. }
  apply try_except_inv_ok in Htry as [Hbody | (e & st3 & k & _ & Hh & Hk)].
  - exfalso.
    apply bind_inv_ok in Hbody as (self & st1' & Hself & Hbody).
    injection Hself as <- <-.
    apply bind_inv_ok in Hbody as (u & st2 & Hsend & Hbody).
    apply bind_inv_ok in Hbody as (self & st2' & Hself & Hbody).
    injection Hself as <- <-.
    apply bind_inv_ok in Hbody as (u2 & st3 & Hproc & _).
    assert (Hm2 : mode (tester st2) = "fast").
    { pose proof (proj1 (sat_send_rdf_data frame frame_trans
                           (fun a b H => H) (sock (tester st1)) fp st1)) as [Hf _].
      rewrite Hsend in Hf. cbn in Hf. rewrite Hf. exact Hm1. }
    apply (fast_mode_process_never_returns st2 (sock (tester st2)) fp u2 Hm2).
    rewrite Hproc. reflexivity.
  - destruct (file_local e); [|discriminate]. injection Hh as <-.
    apply bind_inv_ok in Hk as (? & ? & _ & Hk).
    apply bind_inv_ok in Hk as (? & ? & _ & Hk).
    injection Hk as <- _. reflexivity.
Qed.

(** X6: in 'fast' mode [send_file] never reports a success, so when the loop
    completes [file_times] is as it was and every file has been added to
    [error_count]. *)
Theorem fast_mode_counts_every_file_as_error (st : St) :
  mode (tester st) = "fast" ->
  (forall fp t ok, fst (send_file fp st) = Ok (t, ok) -> ok = false) /\
  (forall files ft ec ft' ec' st',
      send_loop files ft ec st = (Ok (ft', ec'), st') ->
      ft' = ft /\ ec' = ec + length files).
Proof.
  intros Hm. split.
  - intros fp t ok H. destruct (send_file fp st) as [r st'] eqn:Hrun.
    cbn in H. subst r. exact (fast_mode_flag_is_false _ _ _ _ _ Hm Hrun).
  - intros files. revert st Hm.
    induction files as [|fp rest IH]; intros st Hm ft ec ft' ec' st' H.
    + injection H as <- <- _. split; [reflexivity | cbn; lia].
    + cbn [send_loop] in H.
      apply bind_inv_ok in H as (self & st0 & Hself & H). injection Hself as <- <-.
      apply bind_inv_ok in H as (u & st1 & Hlog & H).
      rewrite Hm in Hlog. cbn in Hlog. injection Hlog as _ <-.
      apply bind_inv_ok in H as ([t ok] & st2 & Hsend & H).
      pose proof (fast_mode_flag_is_false _ _ _ _ _ Hm Hsend) as ->.
      assert (Hm2 : mode (tester st2) = "fast").
      { pose proof (frame_send_file fp st) as [Hf _]. rewrite Hsend in Hf.
        cbn in Hf. rewrite Hf. exact Hm. }
      destruct (IH st2 Hm2 _ _ _ _ _ H) as [-> ->]. split; [reflexivity | cbn; lia].
Qed.

(** *** One file *)

Lemma send_file_return_inv (st st' : St) (fp : Path) (t : time) (ok : bool) :
  send_file fp st = (Ok (t, ok), st') ->
  exists s data,
    sock (tester st) = Some s /\
    lookup fp (fs (env st)) = Some data /\
    wire (env st') = wire (env st) ++ [(s, BUF ++ data)] /\
    t = tsub (clock (env st) (S (ticks (env st)))) (clock (env st) (ticks (env st))) /\
    ticks (env st') = S (S (ticks (env st))) /\
    tester st' = tester st /\
    fs (env st') = fs (env st) /\
    closes (env st') = closes (env st).
Proof.
  revert st'. open_state st. run_model. intros st'.
  split_cases; intros H; inversion H; subst; cbn;
    eexists; eexists; repeat split; eauto.
Qed.

(** X7: whenever [send_file] returns, the tester held a socket, the file
    could be read, and exactly one [sendall] was made, of "BUF" followed by
    the file's contents; the clock was read twice and the elapsed time is the
    second reading minus the first; the tester object, the file system and
    the closed sockets are as before. *)
Theorem send_file_return_means_one_sendall (st st' : St) (fp : Path)
        (t : time) (ok : bool) :
  send_file fp st = (Ok (t, ok), st') ->
  exists s data,
    sock (tester st) = Some s /\
    lookup fp (fs (env st)) = Some data /\
    wire (env st') = wire (env st) ++ [(s, BUF ++ data)] /\
    t = tsub (clock (env st) (S (ticks (env st)))) (clock (env st) (ticks (env st))) /\
    ticks (env st') = S (S (ticks (env st))) /\
    tester st' = tester st /\
    fs (env st') = fs (env st) /\
    closes (env st') = closes (env st).
Proof.
  revert st'. open_state st. run_model. intros st'.
  split_cases; intros H; inversion H; subst; cbn;
    eexists; eexists; repeat split; eauto.
Qed.

(** X8: with a usable socket, a readable file, a [sendall] that succeeds and
    a response text [r], [send_file] returns the time between its two clock
    readings and the flag "r has the success prefix and the mode is
    'detailed'"; a success leaves one INFO record, and any other response
    is caught: one ERROR record, whose message is also printed to stderr. *)
Theorem send_file_outcome (st : St) (s : Sock) (fp : Path) (data : list byte)
        (r : string) (rest : list recv_event) :
  constructed (tester st) ->
  sock (tester st) = Some s ->
  sock_usable (env st) s = true ->
  lookup fp (fs (env st)) = Some data ->
  next_sendall_ok (env st) = true ->
  recv_script (env st) = RecvText r :: rest ->
  let ok := startswith r "+RCLUSTER" && (mode (tester st) =? "detailed") in
  let out := send_file fp st in
  fst out = Ok (tsub (clock (env st) (S (ticks (env st))))
                     (clock (env st) (ticks (env st))), ok) /\
  log (env (snd out)) = log (env st) ++ [outcome_record (tester st) fp r] /\
  stderr (env (snd out))
  = stderr (env st) ++ (if ok then [] else [snd (outcome_record (tester st) fp r)]).
Proof.
  intros (Hsp & Hep & _) Hs Hu Hf Hss Hr. unfold next_sendall_ok in Hss.
  unfold outcome_record. open_state st. run_model. unfold startswith.
  rewrite Hf. cbn. rewrite Hu. cbn.
  destruct sendall_script0 as [|[msg|] ss]; try discriminate; cbn; rewrite Hu; cbn;
    (destruct (String.prefix "+RCLUSTER" r) eqn:Hp; cbn;
     [ pose proof (success_excludes_error r Hp) as Hq; unfold startswith in Hq;
       destruct (mode0 =? "detailed"); cbn; rewrite ?Hq; cbn;
       rewrite ?app_nil_r; repeat split; reflexivity
     | destruct (mode0 =? "detailed"); cbn;
       destruct (String.prefix "-RCLUSTER" r); cbn; repeat split; reflexivity ]).
Qed.

(** X9: a file that cannot be opened raises [OSError] inside [send_file],
    which does not catch it: the error leaves [send_file] and the loop of
    [replay_xmlnews] before anything is sent for that file. *)
Theorem send_file_missing_file_escapes (st : St) (fp : Path) (files : list Path)
        (ft : list time) (ec : nat) :
  lookup fp (fs (env st)) = None ->
  fst (send_file fp st) = Raise (OSError (no_such_file_message fp)) /\
  fst (send_loop (fp :: files) ft ec st) = Raise (OSError (no_such_file_message fp)) /\
  wire (env (snd (send_loop (fp :: files) ft ec st))) = wire (env st).
Proof.
  intros Hf. open_state st. cbn [send_loop]. run_model. rewrite Hf. cbn.
  destruct (mode0 =? "detailed"); cbn; rewrite Hf; cbn; repeat split; reflexivity.
Qed.

(** *** The loop over the files *)

Lemma transfer_outcomes_length files :
  forall st os st',
    transfer_outcomes files st = (Ok os, st') -> length os = length files.
Proof.
  induction files as [|fp rest IH]; intros st os st' H.
  - injection H as <- _. reflexivity.
  - cbn [transfer_outcomes] in H.
    apply bind_inv_ok in H as (self & st0 & _ & H).
    apply bind_inv_ok in H as (u & st1 & _ & H).
    apply bind_inv_ok in H as (r & st2 & _ & H).
    apply bind_inv_ok in H as (os' & st3 & Hrest & H).
    injection H as <- _. cbn. f_equal. exact (IH _ _ _ Hrest).
Qed.

Lemma outcomes_split (os : list (time * bool)) :
  length (successful_durations os) + failed_count os = length os.
Proof.
  unfold successful_durations, failed_count.
  induction os as [|[t ok] os IH]; [reflexivity|].
  cbn. destruct ok; cbn; rewrite length_map in *; lia.
Qed.

Lemma transfer_outcomes_are_results files :
  forall st os st',
    transfer_outcomes files st = (Ok os, st') ->
    Forall2 (fun fp o => exists sa sb, send_file fp sa = (Ok o, sb)) files os.
Proof.
  induction files as [|fp rest IH]; intros st os st' H.
  - injection H as <- _. constructor.
  - cbn [transfer_outcomes] in H.
    apply bind_inv_ok in H as (self & st0 & _ & H).
    apply bind_inv_ok in H as (u & st1 & _ & H).
    apply bind_inv_ok in H as (r & st2 & Hsend & H).
    apply bind_inv_ok in H as (os' & st3 & Hrest & H).
    injection H as <- _. constructor; [eauto | exact (IH _ _ _ Hrest)].
Qed.

(** X10: when the loop completes, every file has been counted exactly once.
    The results [os] that [send_file] returned in this run, one for each file
    in order, are such that the durations of those with flag [True] were
    appended, in order, to [file_times], the number of those with flag
    [False] was added to [error_count], and the two together are as many as
    the files. *)
Theorem send_loop_counts_every_file_once (files : list Path) (ft ft' : list time)
        (ec ec' : nat) (st st' : St) :
  send_loop files ft ec st = (Ok (ft', ec'), st') ->
  exists os,
    transfer_outcomes files st = (Ok os, st') /\
    Forall2 (fun fp o => exists sa sb, send_file fp sa = (Ok o, sb)) files os /\
    ft' = ft ++ map fst (filter snd os) /\
    ec' = ec + length (filter (fun o => negb (snd o)) os) /\
    length (map fst (filter snd os))
    + length (filter (fun o => negb (snd o)) os) = length files.
Proof.
  intros H. rewrite send_loop_outcomes in H.
  apply bind_inv_ok in H as (os & st1 & Hos & H). injection H as <- <- <-.
  exists os.
  pose proof (transfer_outcomes_length _ _ _ _ Hos) as Hlen.
  pose proof (outcomes_split os) as Hsplit.
  unfold successful_durations, failed_count in *.
  split; [exact Hos|].
  split; [exact (transfer_outcomes_are_results _ _ _ _ Hos)|].
  split; [reflexivity|]. split; [reflexivity | lia].
Qed.

Lemma sending_line_step (b : bool) (msg : string) st u st1 :
  (if b then logger_info msg else ret tt) st = (Ok u, st1) ->
  tester st1 = tester st /\ fs (env st1) = fs (env st) /\
  wire (env st1) = wire (env st) /\ closes (env st1) = closes (env st).
Proof.
  destruct b; intros H; inversion H; subst; repeat split; reflexivity.
Qed.

(** X11: when the loop completes, what went on the wire is, file after file
    in the order of the list, "BUF" followed by that file's contents, and
    nothing else. *)
Theorem send_loop_sends_each_file_in_order (files : list Path) :
  forall ft ec st r st',
    send_loop files ft ec st = (Ok r, st') ->
    exists datas,
      Forall2 (fun fp data => lookup fp (fs (env st)) = Some data) files datas /\
      map snd (wire (env st')) = map snd (wire (env st)) ++ map (app BUF) datas.
Proof.
  induction files as [|fp rest IH]; intros ft ec st r st' H.
  - injection H as _ <-. exists []. split; [constructor | cbn; symmetry; apply app_nil_r].
  - cbn [send_loop] in H.
    apply bind_inv_ok in H as (self & st0 & Hself & H). injection Hself as <- <-.
    apply bind_inv_ok in H as (u & st1 & Hlog & H).
    apply sending_line_step in Hlog as (Ht1 & Hf1 & Hw1 & _).
    apply bind_inv_ok in H as ([t ok] & st2 & Hsend & H).
    apply send_file_return_inv in Hsend
      as (s & data & _ & Hdata & Hw2 & _ & _ & Ht2 & Hf2 & _).
    assert (Hrest : exists r', (if ok then send_loop rest (ft ++ [t]) ec
                                else send_loop rest ft (ec + 1)) st2 = (Ok r', st'))
      by (exists r; exact H).
    destruct Hrest as [r' Hrest].
    assert (Hih : exists datas,
               Forall2 (fun fp data => lookup fp (fs (env st2)) = Some data) rest datas /\
               map snd (wire (env st')) = map snd (wire (env st2)) ++ map (app BUF) datas)
      by (destruct ok; eapply IH; exact Hrest).
    destruct Hih as (datas & Hall & Hw).
    exists (data :: datas). split.
    + constructor; [congruence|].
      eapply Forall2_impl; [|exact Hall]. cbn. intros a b Hab. congruence.
    + rewrite Hw, Hw2, Hw1, map_app. cbn. rewrite <- app_assoc. reflexivity.
Qed.

(** *** Whole runs *)

(** X12: when the banner read is not the expected one, [replay_xmlnews]
    returns normally: it logs and prints one "Initial connection failed"
    line, closes the new socket once, sends nothing and writes no summary. *)
Theorem replay_banner_mismatch (st : St) (d : Path) (r : string)
        (rest : list recv_event) :
  sock (tester st) = None ->
  next_connect_ok (env st) = true ->
  valid_port (server_port (tester st)) = true ->
  mem_sock (next_sock (env st)) (closes (env st)) = false ->
  recv_script (env st) = RecvText r :: rest ->
  r <> init_response (tester st) ->
  let out := replay_xmlnews d st in
  let line := ("Initial connection failed: "
               ++ no_acknowledgment_message (tester st) r)%string in
  fst out = Ok tt /\
  log (env (snd out)) = log (env st) ++ [(ERROR, line)] /\
  stderr (env (snd out)) = stderr (env st) ++ [line] /\
  closes (env (snd out)) = closes (env st) ++ [next_sock (env st)] /\
  wire (env (snd out)) = wire (env st).
Proof.
  intros Hs Hc Hp Hcl Hr Hne. unfold next_connect_ok in Hc. open_state st. run_model.
  destruct connect_script0 as [|[msg|] cs]; try discriminate; cbn;
    rewrite Hp; cbn; rewrite existsb_app, Hcl; cbn; rewrite Nat.eqb_refl, orb_true_r; cbn;
    (destruct (String.eqb_spec r init_response0); [contradiction|]);
    cbn; repeat split; reflexivity.
Qed.

(** X13: when reading the banner itself fails (a timeout, a socket error,
    bytes that are not UTF-8), the exception is of neither class the handler
    of [replay_xmlnews] catches: it leaves [replay_xmlnews], nothing is
    logged, and the socket just connected is neither closed nor released
    from [self.sock]. *)
Theorem replay_banner_read_error_escapes (st : St) (d : Path) (e : exn) :
  sock (tester st) = None ->
  next_connect_ok (env st) = true ->
  valid_port (server_port (tester st)) = true ->
  mem_sock (next_sock (env st)) (closes (env st)) = false ->
  next_recv_error (env st) = Some e ->
  let out := replay_xmlnews d st in
  fst out = Raise e /\
  sock (tester (snd out)) = Some (next_sock (env st)) /\
  closes (env (snd out)) = closes (env st) /\
  log (env (snd out)) = log (env st) /\
  stderr (env (snd out)) = stderr (env st).
Proof.
  intros Hs Hc Hp Hcl He. unfold next_connect_ok in Hc. unfold next_recv_error in He.
  open_state st. run_model.
  destruct connect_script0 as [|[msg|] cs]; try discriminate; cbn;
    rewrite Hp; cbn; rewrite existsb_app, Hcl; cbn; rewrite Nat.eqb_refl, orb_true_r; cbn;
    (destruct recv_script0 as [|[text| |msg] rest]; try discriminate;
     injection He as <-; cbn; repeat split; reflexivity).
Qed.

(** X14: on a directory with no XML file, after a good handshake,
    [replay_xmlnews] sends nothing, logs the one line "Processed 0 files with
    0 errors" with the total of an empty sum, and closes the socket once. *)
Theorem replay_empty_directory (st : St) (d : Path) (rest : list recv_event) :
  sock (tester st) = None ->
  next_connect_ok (env st) = true ->
  valid_port (server_port (tester st)) = true ->
  mem_sock (next_sock (env st)) (closes (env st)) = false ->
  recv_script (env st) = RecvText (init_response (tester st)) :: rest ->
  listed (env st) d = [] ->
  let out := replay_xmlnews d st in
  fst out = Ok tt /\
  log (env (snd out)) = log (env st) ++ [(INFO, processed_line 0 0 tzero)] /\
  closes (env (snd out)) = closes (env st) ++ [next_sock (env st)] /\
  wire (env (snd out)) = wire (env st) /\
  stderr (env (snd out)) = stderr (env st).
Proof.
  intros Hs Hc Hp Hcl Hr Hl. unfold next_connect_ok in Hc. unfold listed in Hl.
  open_state st. run_model.
  destruct connect_script0 as [|[msg|] cs]; try discriminate; cbn;
    rewrite Hp; cbn; rewrite existsb_app, Hcl; cbn; rewrite Nat.eqb_refl, orb_true_r; cbn;
    rewrite String.eqb_refl; cbn;
    (destruct (lookup d xml_listing0) as [files|]; [subst files|]);
    cbn; repeat split; reflexivity.
Qed.

Lemma sock_close_inv so st u st' :
  sock_close so st = (Ok u, st') ->
  exists s, so = Some s /\ tester st' = tester st /\
            closes (env st') = closes (env st) ++ [s].
Proof.
  destruct so as [s|]; [|discriminate].
  intros H. inversion H. subst. exists s. repeat split; reflexivity.
Qed.

(** Whenever [replay_xmlnews] returns, [self.sock] still holds a socket, and
    that socket has been closed. *)
Lemma replay_leaves_closed_handle st d u st' :
  replay_xmlnews d st = (Ok u, st') ->
  exists s, sock (tester st') = Some s /\ In s (closes (env st')).
Proof.
  intros H. unfold replay_xmlnews in H.
  apply bind_inv_ok in H as (proceed & st1 & Htry & H).
  apply try_except_inv_ok in Htry as [Hbody | (e & st0 & k & _ & Hh & Hk)].
  - apply bind_inv_ok in Hbody as (? & ? & _ & Hret). injection Hret as <- _.
    cbn in H.
    apply bind_inv_ok in H as (counted & st2 & _ & H).
    apply bind_inv_ok in H as (r & st3 & _ & H).
    apply bind_inv_ok in H as (? & st4 & _ & H).
    apply bind_inv_ok in H as (self & st5 & Hself & H). injection Hself as <- <-.
    apply sock_close_inv in H as (s & Hs & Ht & Hc).
    exists s. rewrite Ht, Hc. split; [exact Hs | apply in_or_app; right; left; reflexivity].
  - destruct (run_fatal e); [|discriminate]. injection Hh as <-.
    apply bind_inv_ok in Hk as (? & st2 & _ & Hk).
    apply bind_inv_ok in Hk as (? & st3 & _ & Hk).
    apply bind_inv_ok in Hk as (self & st4 & Hself & Hk). injection Hself as <- <-.
    apply bind_inv_ok in Hk as (? & st5 & Hclose & Hret). injection Hret as <- <-.
    cbn in H. injection H as _ <-.
    apply sock_close_inv in Hclose as (s & Hs & Ht & Hc).
    exists s. rewrite Ht, Hc. split; [exact Hs | apply in_or_app; right; left; reflexivity].
Qed.

(** X15: a tester cannot be replayed twice.  After [replay_xmlnews] has
    returned, [self.sock] holds the closed socket, so a second
    [replay_xmlnews] does not reconnect, and on a directory whose first file
    is readable its first [sendall] raises [OSError], which leaves
    [replay_xmlnews]. *)
Theorem replay_twice_fails_on_closed_socket (st0 st : St) (d0 d fp : Path)
        (files : list Path) (data : list byte) (u : unit) :
  replay_xmlnews d0 st0 = (Ok u, st) ->
  lookup d (xml_listing (env st)) = Some (fp :: files) ->
  lookup fp (fs (env st)) = Some data ->
  let out := replay_xmlnews d st in
  fst out = Raise (OSError "[Errno 9] Bad file descriptor") /\
  connected (env (snd out)) = connected (env st) /\
  next_sock (env (snd out)) = next_sock (env st).
Proof.
  intros H Hd Hf.
  destruct (replay_leaves_closed_handle _ _ _ _ H) as (s & Hs & Hin).
  assert (Hcl : mem_sock s (closes (env st)) = true).
  { unfold mem_sock. apply existsb_exists. exists s. split; [exact Hin | apply Nat.eqb_refl]. }
  clear H Hin. unfold mem_sock in Hcl. open_state st. run_model.
  rewrite Hd. cbn [snd send_loop]. run_model.
  destruct (mode0 =? "detailed"); cbn; rewrite Hf; cbn; rewrite Hcl, andb_false_r;
    cbn; repeat split; reflexivity.
Qed.

Lemma bind_inv_raise {A B} (m : M A) (k : A -> M B) st e st' :
  bind m k st = (Raise e, st') ->
  m st = (Raise e, st') \/
  exists a st1, m st = (Ok a, st1) /\ k a st1 = (Raise e, st').
Proof.
  unfold bind. destruct (m st) as [[a|e0] st1]; [eauto|].
  intros H. left. injection H as <- <-. reflexivity.
Qed.

Lemma send_loop_closes_nothing files :
  forall ft ec st r st',
    send_loop files ft ec st = (Ok r, st') ->
    closes (env st') = closes (env st) /\ tester st' = tester st.
Proof.
  induction files as [|fp rest IH]; intros ft ec st r st' H.
  - injection H as _ <-. split; reflexivity.
  - cbn [send_loop] in H.
    apply bind_inv_ok in H as (self & st0 & Hself & H). injection Hself as <- <-.
    apply bind_inv_ok in H as (u & st1 & Hlog & H).
    apply sending_line_step in Hlog as (Ht1 & _ & _ & Hc1).
    apply bind_inv_ok in H as ([t ok] & st2 & Hsend & H).
    apply send_file_return_inv in Hsend as (s & data & _ & _ & _ & _ & _ & Ht2 & _ & Hc2).
    assert (Hih : closes (env st') = closes (env st2) /\ tester st' = tester st2)
      by (destruct ok; eapply IH; exact H).
    destruct Hih as [Hc Ht]. split; congruence.
Qed.

(** X16: whenever [replay_xmlnews] returns, it has closed exactly one socket,
    the one [self.sock] holds, and it was the last thing it did to the
    sockets: neither the handshake nor the loop nor the summary closes. *)
Theorem replay_return_means_one_close (st st' : St) (d : Path) (u : unit) :
  replay_xmlnews d st = (Ok u, st') ->
  exists s,
    sock (tester st') = Some s /\
    closes (env st') = closes (env st) ++ [s].
Proof.
  intros H. unfold replay_xmlnews in H.
  apply bind_inv_ok in H as (proceed & st1 & Htry & H).
  pose proof (handshake_quiet st) as (_ & Hq & _). cbn zeta in Hq.
  apply try_except_inv_ok in Htry as [Hbody | (e & st0 & k & Hbody & Hh & Hk)].
  - apply bind_inv_ok in Hbody as (x & stx & Heav & Hret). injection Hret as <- <-.
    rewrite Heav in Hq. cbn in Hq, H.
    apply bind_inv_ok in H as (counted & st2 & Hcount & H).
    assert (Hst2 : st2 = stx).
    { revert Hcount. unfold count_xml_files, glob_xml, bind, get_env, ret.
      destruct (lookup d (xml_listing (env stx))); intros Hc; inversion Hc; reflexivity. }
    subst st2.
    apply bind_inv_ok in H as (r & st3 & Hloop & H).
    apply send_loop_closes_nothing in Hloop as [Hc3 Ht3].
    apply bind_inv_ok in H as (x2 & st4 & Hrep & H).
    rewrite report_records in Hrep. injection Hrep as _ <-.
    apply bind_inv_ok in H as (self & st5 & Hself & H). injection Hself as <- <-.
    apply sock_close_inv in H as (s & Hs & Ht & Hc).
    exists s. rewrite Ht, Hc. split; [exact Hs|]. cbn. rewrite Hc3, Hq. reflexivity.
  - destruct (run_fatal e); [|discriminate]. injection Hh as <-.
    apply bind_inv_raise in Hbody as [Heav | (x & stx & _ & Hret)]; [|discriminate].
    rewrite Heav in Hq. cbn in Hq.
    apply bind_inv_ok in Hk as (x1 & st2 & Hlog & Hk).
    apply bind_inv_ok in Hk as (x2 & st3 & Hprint & Hk).
    apply bind_inv_ok in Hk as (self & st4 & Hself & Hk). injection Hself as <- <-.
    apply bind_inv_ok in Hk as (x3 & st5 & Hclose & Hret). injection Hret as <- <-.
    cbn in H. injection H as _ <-.
    apply sock_close_inv in Hclose as (s & Hs & Ht & Hc).
    exists s. rewrite Ht, Hc. split; [exact Hs|].
    inversion Hlog. subst st2. inversion Hprint. subst st3. cbn. rewrite Hq. reflexivity.
Qed.

End Tester.

(** * Concrete runs

    The clock counts milliseconds and advances by 10 at each reading; the
    tester and the file are those of tests/test_clusterd.py. *)

Definition ms_div (x : Z) (n : nat) : Z := (x / Z.of_nat n)%Z.
Definition ms_fmt (x : Z) : string := str_of_int x.

Definition bytes_of (text : string) : list byte :=
  map byte_of_ascii (list_ascii_of_string text).

Definition example_tester (m : string) (so : option Sock) : ClusterDTester :=
  mkTester "127.0.0.1" 12345 m default_init_response "+RCLUSTER" "-RCLUSTER" so.

Definition example_world (connects : list (option string))
           (recvs : list recv_event) (sends : list (option string))
           (conn : list Sock) : World Z :=
  mkWorld Z connects recvs sends
          [("dummy_path.xml", bytes_of "Test RDF data");
           ("second.xml", bytes_of "More RDF data")]
          [("news", ["dummy_path.xml"; "second.xml"]);
           ("one", ["dummy_path.xml"])]
          (fun n => Z.of_nat (10 * n)) 0 (length conn) conn [] [] [] [].

(** A tester just built, before any connection. *)
Definition fresh (m : string) (connects : list (option string))
           (recvs : list recv_event) (sends : list (option string)) : St Z :=
  mkSt Z (example_tester m None) (example_world connects recvs sends []).

(** A tester that holds the connected socket 0. *)
Definition ready (m : string) (recvs : list recv_event)
           (sends : list (option string)) : St Z :=
  mkSt Z (example_tester m (Some 0)) (example_world [] recvs sends [0]).

Definition expected_banner : recv_event := RecvText "+RCLUSTER Version v1.10".
Definition accepted : recv_event := RecvText "+RCLUSTER OK".
Definition rejected : recv_event := RecvText "-RCLUSTER (100) Service Unavailable".
Definition refused : string := "[Errno 111] Connection refused".
Definition broken_pipe : string := "[Errno 32] Broken pipe".

(** [replay_xmlnews] on a new tester in mode [m]. *)
Definition run (m : string) (directory : Path) (connects : list (option string))
           (recvs : list recv_event) (sends : list (option string))
  : result unit * St Z :=
  replay_xmlnews Z Z.sub Z.add 0%Z ms_div ms_fmt directory
                 (fresh m connects recvs sends).

(** The loop and the summary of [replay_xmlnews]. *)
Definition loop_and_report (files : list Path) : M Z unit :=
  bind Z (send_loop Z Z.sub files [] 0)
       (fun r => report Z Z.add 0%Z ms_div ms_fmt (fst r) (snd r)).

(** The state after the handshake of test_no_acknowledgment_error. *)
Definition after_wrong_banner : St Z :=
  snd (call Z Z.sub Z.add 0%Z ms_div ms_fmt EstablishAndValidateConnection
         (fresh "detailed" [] [RecvText "Wrong Response"] [])).

Lemma example_tester_is_init m :
  str_in m ["fast"; "detailed"] = true ->
  init "127.0.0.1" 12345 m default_init_response = Ok (example_tester m None).
Proof. unfold init. intros ->. reflexivity. Qed.

Lemma example_tester_constructed m so :
  str_in m ["fast"; "detailed"] = true -> constructed (example_tester m so).
Proof. intros H. apply str_in_modes in H. repeat split. exact H. Qed.

(** ** The classifier *)

(** C1 at the response of test_send_file_success, in 'fast' mode. *)
Lemma C1_witness :
  process_server_response Z (Some 0) "dummy_path.xml"
    (ready "fast" [RecvText "+RCLUSTER Success Message"] [])
  = (Raise (ServerResponseError
              "Unexpected response for dummy_path.xml: +RCLUSTER Success Message"),
     ready "fast" [] []).
Proof.
  exact (C1_fast_mode_raises_on_success_prefix Z
           (ready "fast" [RecvText "+RCLUSTER Success Message"] []) 0
           "dummy_path.xml" "+RCLUSTER Success Message" []
           (example_tester_constructed "fast" (Some 0) eq_refl) eq_refl
           (conj eq_refl eq_refl) eq_refl).
Defined.

(** The same response in 'detailed' mode is accepted. *)
Example detailed_mode_accepts_success_prefix :
  fst (process_server_response Z (Some 0) "dummy_path.xml"
         (ready "detailed" [RecvText "+RCLUSTER Success Message"] []))
  = Ok tt.
Proof. reflexivity. Qed.

(** Scenario A of the spec in 'fast' mode: the accepted file is counted as an
    error and the summary reports no success. *)
Example fast_mode_run_counts_success_as_error :
  let out := run "fast" "one" [] [expected_banner; accepted] [] in
  fst out = Ok tt /\
  log Z (env Z (snd out)) =
  [(ERROR, "Unexpected response for dummy_path.xml: +RCLUSTER OK");
   (INFO, "Processed 0 files with 1 errors in 0 seconds.")].
Proof. split; reflexivity. Qed.

(** C6 at the response of test_server_response_error. *)
Lemma C6_witness :
  process_server_response Z (Some 0) "dummy_path.xml" (ready "detailed" [rejected] [])
  = (Raise (ServerResponseError
              "Failure for dummy_path.xml: (100) Service Unavailable"),
     ready "detailed" [] []).
Proof.
  destruct (C6_error_prefix_raises_failure_with_detail Z
              (ready "detailed" [rejected] [])
              0 "dummy_path.xml" "-RCLUSTER (100) Service Unavailable" []
              (example_tester_constructed "detailed" (Some 0) eq_refl)
              (conj eq_refl eq_refl) eq_refl)
    as [detail [Heq [Hd _]]].
  rewrite Hd in Heq. exact Heq.
Defined.

(** The detail is cut by position: ten characters are dropped, whatever the
    tenth is. *)
Example detail_is_cut_by_position :
  fst (process_server_response Z (Some 0) "dummy_path.xml"
         (ready "fast" [RecvText "-RCLUSTER:(100) Service Unavailable"] []))
  = Raise (ServerResponseError
             "Failure for dummy_path.xml: (100) Service Unavailable") /\
  fst (process_server_response Z (Some 0) "dummy_path.xml"
         (ready "fast" [RecvText "-RCLUSTER"] []))
  = Raise (ServerResponseError "Failure for dummy_path.xml: ").
Proof. split; reflexivity. Qed.

(** C7 at a response of another protocol. *)
Lemma C7_witness :
  process_server_response Z (Some 0) "dummy_path.xml"
    (ready "detailed" [RecvText "HTTP/1.1 400 Bad Request"] [])
  = (Raise (ServerResponseError
              "Unexpected response for dummy_path.xml: HTTP/1.1 400 Bad Request"),
     ready "detailed" [] []).
Proof.
  exact (proj1 (C7_neither_prefix_raises_unexpected Z
                  (ready "detailed" [RecvText "HTTP/1.1 400 Bad Request"] [])
                  0 "dummy_path.xml" "HTTP/1.1 400 Bad Request" []
                  (example_tester_constructed "detailed" (Some 0) eq_refl)
                  (conj eq_refl eq_refl) eq_refl eq_refl)).
Defined.

(** ** The handshake *)

(** C4 at the expected banner. *)
Lemma C4_witness :
  receives Z (ready "detailed" [expected_banner] []) 0 "+RCLUSTER Version v1.10" [] /\
  fst (validate_server_acknowledgment Z (Some 0) (ready "detailed" [expected_banner] []))
  = Ok tt.
Proof.
  assert (H : receives Z (ready "detailed" [expected_banner] []) 0
                "+RCLUSTER Version v1.10" []) by (split; reflexivity).
  split; [exact H|].
  exact (proj2 (proj1 (C4_validate_iff_exact_banner Z _ 0 _ [] H)) eq_refl).
Defined.

(** The banner of test_no_acknowledgment_error. *)
Example wrong_banner_is_not_acknowledged :
  fst (validate_server_acknowledgment Z (Some 0)
         (ready "detailed" [RecvText "Wrong Response"] []))
  = Raise (NoAcknowledgmentError
             "No acknowledgment from 127.0.0.1:12345: Wrong Response").
Proof. reflexivity. Qed.

(** A banner with one more character at its end is refused too. *)
Example padded_banner_is_not_acknowledged :
  fst (validate_server_acknowledgment Z (Some 0)
         (ready "detailed" [RecvText "+RCLUSTER Version v1.10 "] []))
  = Raise (NoAcknowledgmentError
             "No acknowledgment from 127.0.0.1:12345: +RCLUSTER Version v1.10 ").
Proof. reflexivity. Qed.

(** C9, as stated, fails: the banner is wrong, validation raises
    [NoAcknowledgmentError], and the session holds the handle of socket 0. *)
Lemma C9_counterexample :
  fst (establish_and_validate_connection Z
         (fresh "detailed" [] [RecvText "Wrong Response"] []))
  = Raise (NoAcknowledgmentError
             "No acknowledgment from 127.0.0.1:12345: Wrong Response") /\
  sock (tester Z (snd (establish_and_validate_connection Z
                         (fresh "detailed" [] [RecvText "Wrong Response"] []))))
  = Some 0.
Proof. split; reflexivity. Qed.

(** C9 (amended) at that state: the handle it holds is a connected socket. *)
Lemma C9_witness :
  reachable Z Z.sub Z.add 0%Z ms_div ms_fmt after_wrong_banner /\
  In 0 (connected Z (env Z after_wrong_banner)).
Proof.
  assert (H : reachable Z Z.sub Z.add 0%Z ms_div ms_fmt after_wrong_banner).
  { apply reach_call.
    exact (reach_init Z Z.sub Z.add 0%Z ms_div ms_fmt _ _ _ _ _ _
             (example_tester_is_init "detailed" eq_refl)). }
  split; [exact H|].
  exact (proj1 (C9_handle_present_only_after_connect Z Z.sub Z.add 0%Z ms_div ms_fmt
                  after_wrong_banner H) 0 eq_refl).
Defined.

(** A second handshake on that tester returns at once: the banner is not
    read again. *)
Example second_handshake_is_skipped :
  establish_and_validate_connection Z after_wrong_banner = (Ok tt, after_wrong_banner).
Proof. reflexivity. Qed.

(** ** Sending *)

(** C5 at the file of test_send_file_success. *)
Lemma C5_witness :
  wire Z (env Z (snd (send_rdf_data Z (Some 0) "dummy_path.xml"
                        (ready "detailed" [] []))))
  = [(0, bytes_of "BUFTest RDF data")].
Proof.
  exact (proj1 (C5_send_rdf_data_sends_BUF_then_contents Z (ready "detailed" [] []) 0
                  "dummy_path.xml" (bytes_of "Test RDF data") eq_refl)).
Defined.

(** C3 at a broken pipe on the first of two files. *)
Lemma C3_witness :
  fst (send_file Z Z.sub "dummy_path.xml" (ready "detailed" [accepted] [Some broken_pipe]))
  = Raise (OSError "[Errno 32] Broken pipe") /\
  fst (send_loop Z Z.sub ["dummy_path.xml"; "second.xml"] [] 0
         (ready "detailed" [accepted] [Some broken_pipe]))
  = Raise (OSError "[Errno 32] Broken pipe") /\
  wire Z (env Z (snd (send_loop Z Z.sub ["dummy_path.xml"; "second.xml"] [] 0
                        (ready "detailed" [accepted] [Some broken_pipe]))))
  = [(0, bytes_of "BUFTest RDF data")].
Proof.
  exact (C3_socket_error_escapes_send_file Z Z.sub
           (ready "detailed" [accepted] [Some broken_pipe])
           0 "dummy_path.xml" ["second.xml"] [] 0 (bytes_of "Test RDF data")
           "[Errno 32] Broken pipe" [] eq_refl eq_refl eq_refl eq_refl).
Defined.

(** The whole run: the error leaves [replay_xmlnews]; the second file is not
    sent, there is no summary and the socket is not closed. *)
Example socket_error_aborts_the_run :
  let out := run "fast" "news" [] [expected_banner; accepted] [Some broken_pipe] in
  fst out = Raise (OSError "[Errno 32] Broken pipe") /\
  log Z (env Z (snd out)) = [] /\
  closes Z (env Z (snd out)) = [] /\
  wire Z (env Z (snd out)) = [(0, bytes_of "BUFTest RDF data")].
Proof. repeat split; reflexivity. Qed.

(** The same when the server does not answer a file and [recv] times out. *)
Example recv_timeout_aborts_the_run :
  let out := run "detailed" "news" [] [expected_banner] [] in
  fst out = Raise (OSError "timed out") /\
  log Z (env Z (snd out)) = [(INFO, "Sending dummy_path.xml to 127.0.0.1:12345")] /\
  closes Z (env Z (snd out)) = [].
Proof. repeat split; reflexivity. Qed.

(** ** Closing *)

(** C2 at a refused connection. *)
Lemma C2_witness :
  fst (run "detailed" "news" [Some refused] [] [])
  = Raise (AttributeError "'NoneType' object has no attribute 'close'") /\
  closes Z (env Z (snd (run "detailed" "news" [Some refused] [] []))) = [].
Proof.
  exact (C2_connect_failure_close_raises Z Z.sub Z.add 0%Z ms_div ms_fmt
           (fresh "detailed" [Some refused] [] [])
           "news" "[Errno 111] Connection refused" [] eq_refl eq_refl).
Defined.

(** ** The summary *)

(** Times as exact fractions of a second, printed with two decimals (rounded
    to the nearest hundredth; the values below are no ties). *)
Definition q_sub (a b : Q) : Q := Qred (a - b).
Definition q_add (a b : Q) : Q := Qred (a + b).
Definition q_div (x : Q) (n : nat) : Q := Qred (x / inject_Z (Z.of_nat n)).
Definition q_fmt2 (x : Q) : string :=
  let cents := Qfloor (x * inject_Z 100 + (1 # 2)) in
  let r := (cents mod 100)%Z in
  str_of_int (cents / 100)%Z ++ "." ++ (if (r <? 10)%Z then "0" else "")
  ++ str_of_int r.

(** A new tester in 'detailed' mode, three files, and a server that accepts
    the first and the third.  The n-th reading of the clock is n*n/10 s, so
    the three transfers take 0.1 s, 0.5 s and 0.9 s. *)
Definition three_files : St Q :=
  mkSt Q (example_tester "detailed" None)
       (mkWorld Q [] [expected_banner; accepted; rejected; accepted] []
                [("dummy_path.xml", bytes_of "Test RDF data");
                 ("second.xml", bytes_of "More RDF data");
                 ("third.xml", bytes_of "Last RDF data")]
                [("three", ["dummy_path.xml"; "second.xml"; "third.xml"])]
                (fun n => (Z.of_nat (n * n) # 10)%Q) 0 0 [] [] [] [] []).

Definition three_files_run : result unit * St Q :=
  replay_xmlnews Q q_sub q_add (0 # 1)%Q q_div q_fmt2 "three" three_files.

(** C8 at a whole run with two successes and one failure: the total is
    0.1 + 0.9 and the average half of it. *)
Lemma C8_witness :
  fst three_files_run = Ok tt /\
  log Q (env Q (snd three_files_run))
  = [(INFO, "Sending dummy_path.xml to 127.0.0.1:12345");
     (INFO, "Success for dummy_path.xml: +RCLUSTER OK");
     (INFO, "Sending second.xml to 127.0.0.1:12345");
     (ERROR, "Failure for second.xml: (100) Service Unavailable");
     (INFO, "Sending third.xml to 127.0.0.1:12345");
     (INFO, "Success for third.xml: +RCLUSTER OK");
     (INFO, "Processed 2 files with 1 errors in 1.00 seconds.");
     (INFO, "Average processing time per successful file: 0.50 seconds.")].
Proof.
  assert (Heav : establish_and_validate_connection Q three_files
                 = (Ok tt, snd (establish_and_validate_connection Q three_files)))
    by (vm_compute; reflexivity).
  assert (Hos : transfer_outcomes Q q_sub
                  (listed Q (env Q (snd (establish_and_validate_connection Q three_files)))
                          "three")
                  (snd (establish_and_validate_connection Q three_files))
                = (Ok [((1 # 10)%Q, true); ((1 # 2)%Q, false); ((9 # 10)%Q, true)],
                   snd (transfer_outcomes Q q_sub
                          (listed Q (env Q (snd (establish_and_validate_connection Q
                                                   three_files))) "three")
                          (snd (establish_and_validate_connection Q three_files)))))
    by (vm_compute; reflexivity).
  pose proof (C8_summary_total_and_average Q q_sub q_add (0 # 1)%Q q_div q_fmt2
                "three" three_files _ _ _ Heav Hos) as H.
  cbv zeta in H. destruct H as (H1 & H2 & _).
  split; [exact H1|].
  unfold three_files_run. rewrite H2. vm_compute. reflexivity.
Defined.

(** With no success the summary has one line and nothing is divided. *)
Example no_success_no_average :
  log Z (env Z (snd (loop_and_report ["second.xml"] (ready "detailed" [rejected] []))))
  = [(INFO, "Sending second.xml to 127.0.0.1:12345");
     (ERROR, "Failure for second.xml: (100) Service Unavailable");
     (INFO, "Processed 0 files with 1 errors in 0 seconds.")].
Proof. reflexivity. Qed.

(** ** The scenarios of the test suite, end to end *)

Example scenario_success :
  let out := run "detailed" "one" [] [expected_banner; accepted] [] in
  fst out = Ok tt /\
  wire Z (env Z (snd out)) = [(0, bytes_of "BUFTest RDF data")] /\
  closes Z (env Z (snd out)) = [0] /\
  log Z (env Z (snd out)) =
  [(INFO, "Sending dummy_path.xml to 127.0.0.1:12345");
   (INFO, "Success for dummy_path.xml: +RCLUSTER OK");
   (INFO, "Processed 1 files with 0 errors in 10 seconds.");
   (INFO, "Average processing time per successful file: 10 seconds.")].
Proof. repeat split; reflexivity. Qed.

Example scenario_wrong_banner :
  let out := run "detailed" "one" [] [RecvText "Wrong Response"] [] in
  fst out = Ok tt /\
  wire Z (env Z (snd out)) = [] /\
  closes Z (env Z (snd out)) = [0] /\
  log Z (env Z (snd out)) =
  [(ERROR, "Initial connection failed: No acknowledgment from 127.0.0.1:12345: Wrong Response")].
Proof. repeat split; reflexivity. Qed.

Example scenario_server_rejects :
  let out := run "detailed" "one" [] [expected_banner; rejected] [] in
  fst out = Ok tt /\
  closes Z (env Z (snd out)) = [0] /\
  log Z (env Z (snd out)) =
  [(INFO, "Sending dummy_path.xml to 127.0.0.1:12345");
   (ERROR, "Failure for dummy_path.xml: (100) Service Unavailable");
   (INFO, "Processed 0 files with 1 errors in 0 seconds.")].
Proof. repeat split; reflexivity. Qed.

Example scenario_connect_fails :
  fst (establish_connection Z (fresh "detailed" [Some refused] [] []))
  = Raise (ConnectionError
             "Failed to connect to 127.0.0.1:12345: [Errno 111] Connection refused").
Proof. reflexivity. Qed.

(** * Further concrete runs *)

(** A tester in 'detailed' mode that holds socket 0, a server that accepts
    the first file and rejects the second. *)
Definition accept_then_reject : St Z := ready "detailed" [accepted; rejected] [].

(** The same server, seen by a tester in 'fast' mode. *)
Definition accept_then_reject_fast : St Z := ready "fast" [accepted; rejected] [].

Definition both_files : list Path := ["dummy_path.xml"; "second.xml"].

(** The state a complete run over the directory "one" leaves. *)
Definition after_first_run : St Z :=
  snd (run "detailed" "one" [] [expected_banner; accepted] []).

(** X2 at the handshake of test_send_file_success. *)
Lemma handshake_success_witness :
  fst (establish_and_validate_connection Z
         (fresh "detailed" [] [expected_banner; accepted] []))
  = Ok tt /\
  sock (tester Z (snd (establish_and_validate_connection Z
                         (fresh "detailed" [] [expected_banner; accepted] []))))
  = Some 0 /\
  recv_script Z (env Z (snd (establish_and_validate_connection Z
                               (fresh "detailed" [] [expected_banner; accepted] []))))
  = [accepted].
Proof.
  pose proof (handshake_success Z (fresh "detailed" [] [expected_banner; accepted] [])
                [accepted] eq_refl eq_refl eq_refl eq_refl eq_refl) as H.
  cbv zeta in H. destruct H as (H1 & H2 & _ & H4 & _).
  split; [exact H1 | split; [exact H2 | exact H4]].
Defined.

(** X3 at the state test_no_acknowledgment_error leaves. *)
Lemma handshake_retry_witness :
  sock (tester Z after_wrong_banner) <> None /\
  establish_and_validate_connection Z after_wrong_banner = (Ok tt, after_wrong_banner).
Proof.
  exact (handshake_retry_is_not_validated Z
           (fresh "detailed" [] [RecvText "Wrong Response"] []) after_wrong_banner
           "No acknowledgment from 127.0.0.1:12345: Wrong Response" eq_refl).
Defined.

(** X5 at an accepted file. *)
Lemma detailed_mode_classification_witness :
  fst (process_server_response Z (Some 0) "dummy_path.xml" accept_then_reject) = Ok tt.
Proof.
  pose proof (detailed_mode_classification Z accept_then_reject 0 "dummy_path.xml"
                "+RCLUSTER OK" [rejected]
                (example_tester_constructed "detailed" (Some 0) eq_refl) eq_refl
                (conj eq_refl eq_refl)) as H.
  cbv zeta in H. destruct H as ((_ & H) & _). exact (H eq_refl).
Defined.

(** X6 at two files the server accepts. *)
Lemma fast_mode_witness :
  send_loop Z Z.sub both_files [] 0 (ready "fast" [accepted; accepted] [])
  = (Ok ([], 2), snd (send_loop Z Z.sub both_files [] 0
                        (ready "fast" [accepted; accepted] []))) /\
  ((@nil Z) = [] /\ 2 = 0 + 2).
Proof.
  assert (H : send_loop Z Z.sub both_files [] 0 (ready "fast" [accepted; accepted] [])
              = (Ok ([], 2), snd (send_loop Z Z.sub both_files [] 0
                                    (ready "fast" [accepted; accepted] []))))
    by (vm_compute; reflexivity).
  split; [exact H|].
  exact (proj2 (fast_mode_counts_every_file_as_error Z Z.sub
                  (ready "fast" [accepted; accepted] []) eq_refl)
               both_files [] 0 [] 2 _ H).
Defined.

(** X7 at the file of test_send_file_success. *)
Lemma send_file_return_witness :
  send_file Z Z.sub "dummy_path.xml" accept_then_reject
  = (Ok (10%Z, true), snd (send_file Z Z.sub "dummy_path.xml" accept_then_reject)) /\
  exists s data,
    sock (tester Z accept_then_reject) = Some s /\
    lookup "dummy_path.xml" (fs Z (env Z accept_then_reject)) = Some data /\
    wire Z (env Z (snd (send_file Z Z.sub "dummy_path.xml" accept_then_reject)))
    = wire Z (env Z accept_then_reject) ++ [(s, BUF ++ data)].
Proof.
  assert (H : send_file Z Z.sub "dummy_path.xml" accept_then_reject
              = (Ok (10%Z, true),
                 snd (send_file Z Z.sub "dummy_path.xml" accept_then_reject)))
    by (vm_compute; reflexivity).
  split; [exact H|].
  destruct (send_file_return_means_one_sendall Z Z.sub _ _ _ _ _ H)
    as (s & data & Hs & Hd & Hw & _).
  exists s, data. split; [exact Hs | split; [exact Hd | exact Hw]].
Defined.

(** X8 at the response of test_server_response_error. *)
Lemma send_file_outcome_witness :
  fst (send_file Z Z.sub "dummy_path.xml" (ready "detailed" [rejected] []))
  = Ok (10%Z, false) /\
  log Z (env Z (snd (send_file Z Z.sub "dummy_path.xml" (ready "detailed" [rejected] []))))
  = [(ERROR, "Failure for dummy_path.xml: (100) Service Unavailable")] /\
  stderr Z (env Z (snd (send_file Z Z.sub "dummy_path.xml"
                          (ready "detailed" [rejected] []))))
  = ["Failure for dummy_path.xml: (100) Service Unavailable"].
Proof.
  exact (send_file_outcome Z Z.sub (ready "detailed" [rejected] []) 0 "dummy_path.xml"
           (bytes_of "Test RDF data") "-RCLUSTER (100) Service Unavailable" []
           (example_tester_constructed "detailed" (Some 0) eq_refl)
           eq_refl eq_refl eq_refl eq_refl eq_refl).
Defined.

(** X9 at a file that is listed but cannot be opened. *)
Lemma missing_file_witness :
  fst (send_file Z Z.sub "gone.xml" accept_then_reject)
  = Raise (OSError "[Errno 2] No such file or directory: 'gone.xml'") /\
  fst (send_loop Z Z.sub ["gone.xml"; "dummy_path.xml"] [] 0 accept_then_reject)
  = Raise (OSError "[Errno 2] No such file or directory: 'gone.xml'") /\
  wire Z (env Z (snd (send_loop Z Z.sub ["gone.xml"; "dummy_path.xml"] [] 0
                        accept_then_reject)))
  = [].
Proof.
  exact (send_file_missing_file_escapes Z Z.sub accept_then_reject "gone.xml"
           ["dummy_path.xml"] [] 0 eq_refl).
Defined.

Lemma accept_then_reject_loop :
  send_loop Z Z.sub both_files [] 0 accept_then_reject
  = (Ok ([10%Z], 1), snd (send_loop Z Z.sub both_files [] 0 accept_then_reject)).
Proof. vm_compute. reflexivity. Defined.

(** X10 at one accepted and one rejected file. *)
Lemma send_loop_counts_witness :
  exists os,
    transfer_outcomes Z Z.sub both_files accept_then_reject
    = (Ok os, snd (send_loop Z Z.sub both_files [] 0 accept_then_reject)) /\
    Forall2 (fun fp o => exists sa sb, send_file Z Z.sub fp sa = (Ok o, sb))
            both_files os /\
    [10%Z] = [] ++ map fst (filter snd os) /\
    1 = 0 + length (filter (fun o => negb (snd o)) os) /\
    length (map fst (filter snd os))
    + length (filter (fun o => negb (snd o)) os) = length both_files.
Proof.
  exact (send_loop_counts_every_file_once Z Z.sub both_files [] [10%Z] 0 1
           accept_then_reject _ accept_then_reject_loop).
Defined.

(** X11 at the same two files. *)
Lemma send_loop_order_witness :
  exists datas,
    Forall2 (fun fp data => lookup fp (fs Z (env Z accept_then_reject)) = Some data)
            both_files datas /\
    map snd (wire Z (env Z (snd (send_loop Z Z.sub both_files [] 0 accept_then_reject))))
    = map snd (wire Z (env Z accept_then_reject)) ++ map (app BUF) datas.
Proof.
  exact (send_loop_sends_each_file_in_order Z Z.sub both_files [] 0
           accept_then_reject _ _ accept_then_reject_loop).
Defined.

(** What those two files put on the wire. *)
Example two_files_on_the_wire :
  map snd (wire Z (env Z (snd (send_loop Z Z.sub both_files [] 0 accept_then_reject))))
  = [bytes_of "BUFTest RDF data"; bytes_of "BUFMore RDF data"].
Proof. reflexivity. Qed.

Lemma wrong_response_differs :
  "Wrong Response" <> init_response (example_tester "detailed" None).
Proof. discriminate. Defined.

(** X12 at the banner of test_no_acknowledgment_error. *)
Lemma replay_banner_mismatch_witness :
  fst (run "detailed" "news" [] [RecvText "Wrong Response"] []) = Ok tt /\
  log Z (env Z (snd (run "detailed" "news" [] [RecvText "Wrong Response"] [])))
  = [(ERROR, "Initial connection failed: No acknowledgment from 127.0.0.1:12345: Wrong Response")] /\
  closes Z (env Z (snd (run "detailed" "news" [] [RecvText "Wrong Response"] [])))
  = [0].
Proof.
  pose proof (replay_banner_mismatch Z Z.sub Z.add 0%Z ms_div ms_fmt
                (fresh "detailed" [] [RecvText "Wrong Response"] []) "news"
                "Wrong Response" [] eq_refl eq_refl eq_refl eq_refl eq_refl
                wrong_response_differs) as H.
  cbv zeta in H. destruct H as (H1 & H2 & _ & H4 & _).
  split; [exact H1 | split; [exact H2 | exact H4]].
Defined.

(** X13 at a server that connects and then stays silent. *)
Lemma replay_banner_timeout_witness :
  fst (run "detailed" "news" [] [] []) = Raise (OSError "timed out") /\
  sock (tester Z (snd (run "detailed" "news" [] [] []))) = Some 0 /\
  closes Z (env Z (snd (run "detailed" "news" [] [] []))) = [].
Proof.
  pose proof (replay_banner_read_error_escapes Z Z.sub Z.add 0%Z ms_div ms_fmt
                (fresh "detailed" [] [] []) "news" (OSError "timed out")
                eq_refl eq_refl eq_refl eq_refl eq_refl) as H.
  cbv zeta in H. destruct H as (H1 & H2 & H3 & _).
  split; [exact H1 | split; [exact H2 | exact H3]].
Defined.

(** X14 at a directory that lists no file. *)
Lemma replay_empty_directory_witness :
  fst (run "detailed" "empty" [] [expected_banner] []) = Ok tt /\
  log Z (env Z (snd (run "detailed" "empty" [] [expected_banner] [])))
  = [(INFO, "Processed 0 files with 0 errors in 0 seconds.")] /\
  closes Z (env Z (snd (run "detailed" "empty" [] [expected_banner] []))) = [0].
Proof.
  pose proof (replay_empty_directory Z Z.sub Z.add 0%Z ms_div ms_fmt
                (fresh "detailed" [] [expected_banner] []) "empty" []
                eq_refl eq_refl eq_refl eq_refl eq_refl eq_refl) as H.
  cbv zeta in H. destruct H as (H1 & H2 & H3 & _).
  split; [exact H1 | split; [exact H2 | exact H3]].
Defined.

Lemma first_run_returns :
  replay_xmlnews Z Z.sub Z.add 0%Z ms_div ms_fmt "one"
    (fresh "detailed" [] [expected_banner; accepted] [])
  = (Ok tt, after_first_run).
Proof. vm_compute. reflexivity. Defined.

(** X15 at a second run of the tester of scenario A. *)
Lemma replay_twice_witness :
  fst (replay_xmlnews Z Z.sub Z.add 0%Z ms_div ms_fmt "one" after_first_run)
  = Raise (OSError "[Errno 9] Bad file descriptor") /\
  connected Z (env Z (snd (replay_xmlnews Z Z.sub Z.add 0%Z ms_div ms_fmt "one"
                             after_first_run)))
  = [0].
Proof.
  pose proof (replay_twice_fails_on_closed_socket Z Z.sub Z.add 0%Z ms_div ms_fmt
                _ after_first_run "one" "one" "dummy_path.xml" []
                (bytes_of "Test RDF data") tt first_run_returns eq_refl eq_refl) as H.
  cbv zeta in H. destruct H as (H1 & H2 & _).
  split; [exact H1 | exact H2].
Defined.

(** X16 at the run of scenario A. *)
Lemma replay_one_close_witness :
  exists s, sock (tester Z after_first_run) = Some s /\
            closes Z (env Z after_first_run)
            = closes Z (env Z (fresh "detailed" [] [expected_banner; accepted] [])) ++ [s].
Proof.
  exact (replay_return_means_one_close Z Z.sub Z.add 0%Z ms_div ms_fmt
           _ after_first_run "one" tt first_run_returns).
Defined.

(** A port outside 0..65535, which the constructor and the command line
    accept: the [OverflowError] of the connect is no socket error, so
    [establish_connection] does not wrap it and [replay_xmlnews] does not
    catch it. *)
Definition port_70000 : St Z :=
  mkSt Z (mkTester "127.0.0.1" 70000 "fast" default_init_response
                   "+RCLUSTER" "-RCLUSTER" None)
       (example_world [] [expected_banner] [] []).

Example port_out_of_range_escapes :
  fst (establish_connection Z port_70000)
  = Raise (OverflowError "connect(): port must be 0-65535.") /\
  fst (replay_xmlnews Z Z.sub Z.add 0%Z ms_div ms_fmt "news" port_70000)
  = Raise (OverflowError "connect(): port must be 0-65535.") /\
  sock (tester Z (snd (replay_xmlnews Z Z.sub Z.add 0%Z ms_div ms_fmt "news"
                         port_70000))) = None.
Proof. repeat split; reflexivity. Qed.
